(** * Cryptocurrency Market API: pagination helpers and the CoinGecko gateway

    A shallow embedding of [src/utils/pagination.py],
    [src/services/coingecko_service.py], [src/models/coin.py] and the
    endpoints of [src/main.py] that call them, followed by the properties
    the specification states about them.

    Python integers are unbounded, so they are modelled by [Z]; Python
    lists by [list]; a decoded JSON document by the inductive type [json];
    exceptions by an explicit result type; the outbound HTTP calls by a
    log of requests threaded through a small state-and-error monad. *)

From stdpp Require Import base list strings pretty.
From Stdlib Require Import ZArith Lia PrimFloat.

Open Scope Z_scope.

(** ** Python sequence primitives *)

Module Py.

(** How CPython adjusts one bound of a slice [xs[start:stop]] with step 1
    (PySlice_AdjustIndices): a negative bound counts from the end and is
    clamped at 0, a non-negative one is clamped at the length. *)
Definition slice_index (len : nat) (i : Z) : nat :=
  if i <? 0 then Z.to_nat (Z.max (i + Z.of_nat len) 0)
  else Z.to_nat (Z.min i (Z.of_nat len)).

(** [xs[start:stop]] *)
Definition slice {A} (xs : list A) (start stop : Z) : list A :=
  let lo := slice_index (length xs) start in
  let hi := slice_index (length xs) stop in
  take (hi - lo)%nat (drop lo xs).

(** [xs[:stop]] *)
Definition slice_to {A} (xs : list A) (stop : Z) : list A :=
  slice xs 0 stop.

(** [len(xs)] *)
Definition len {A} (xs : list A) : Z := Z.of_nat (length xs).

End Py.

(** ** src/utils/pagination.py *)

Module PaginatedResponse.
(** The dictionary built by [paginate_response] (and by the coin-list
    endpoint): keys "page", "per_page", "total", "items". *)
Record t (A : Type) := Build
  { page : Z; per_page : Z; total : Z; items : list A }.
Arguments Build {A} _ _ _ _.
Arguments page {A} _.
Arguments per_page {A} _.
Arguments total {A} _.
Arguments items {A} _.
End PaginatedResponse.

Definition validate_pagination_params (page per_page max_per_page : Z) : Z * Z :=
  let page := Z.max page 1 in
  let per_page := if per_page <? 1 then 10 else per_page in
  let per_page := Z.min per_page max_per_page in
  (page, per_page).

Definition paginate_response {A} (items : list A) (page per_page : Z)
  : PaginatedResponse.t A :=
  let total_items := Py.len items in
  let start_idx := (page - 1) * per_page in
  let end_idx := start_idx + per_page in
  let paginated_items :=
    if start_idx <? total_items then Py.slice items start_idx end_idx else [] in
  PaginatedResponse.Build page per_page total_items paginated_items.

(** main.py: [MAX_PER_PAGE = 100]. *)
Definition MAX_PER_PAGE : Z := 100.
Definition DEFAULT_PAGE : Z := 1.
Definition DEFAULT_PER_PAGE : Z := 10.

(** A pair is normalized when it can come out of the normalizer. *)
Definition normalized (page per_page : Z) : Prop :=
  1 <= page /\ 1 <= per_page <= MAX_PER_PAGE.

(** The items of pages 1, 2, ..., n of [xs], one after the other. *)
Definition pages_upto {A} (xs : list A) (per_page : Z) (n : nat) : list A :=
  flat_map
    (fun k => PaginatedResponse.items
                (paginate_response xs (Z.of_nat k + 1) per_page))
    (seq 0 n).

(** ** Decoded JSON documents and Python's view of them *)

(** What [response.json()] returns.  A dictionary keeps its insertion
    order and has one entry per key; it is an association list read by
    its first match.  A string is a sequence of characters. *)
#[warnings="-register-all"] Inductive json :=
| JNull
| JBool (b : bool)
| JInt (n : Z)
| JFloat (f : float)
| JStr (s : string)
| JList (xs : list json)
| JDict (kvs : list (string * json)).

(** ** Exceptions *)

Inductive exn :=
| HTTPException (status_code : Z) (detail : string)  (* fastapi.HTTPException *)
| HTTPError (status_code : Z) (msg : string)         (* requests.exceptions.HTTPError,
                                                        with e.response.status_code *)
| RequestException (msg : string)                    (* any other requests.RequestException *)
| OtherException (cls : string) (msg : string).      (* any other Exception *)

Inductive result (A : Type) :=
| Ok (a : A)
| Raise (e : exn).
Arguments Ok {A} _.
Arguments Raise {A} _.

#[global] Instance result_ret : MRet result := @Ok.
#[global] Instance result_bind : MBind result := fun A B f m =>
  match m with
  | Ok a => f a
  | Raise e => Raise e
  end.

(** [str(e)] *)
Definition str_exn (e : exn) : string :=
  match e with
  | HTTPException c d => pretty c +:+ ": " +:+ d
  | HTTPError _ m => m
  | RequestException m => m
  | OtherException _ m => m
  end.

Module PyJson.

(** [type(j).__name__] *)
Definition type_name (j : json) : string :=
  match j with
  | JNull => "NoneType"
  | JBool _ => "bool"
  | JInt _ => "int"
  | JFloat _ => "float"
  | JStr _ => "str"
  | JList _ => "list"
  | JDict _ => "dict"
  end.

(** [bool(j)], as tested by [if not j]. *)
Definition truthy (j : json) : bool :=
  match j with
  | JNull => false
  | JBool b => b
  | JInt n => negb (n =? 0)
  | JFloat f => negb (PrimFloat.eqb f 0%float)
  | JStr s => negb (String.eqb s "")
  | JList xs => match xs with [] => false | _ => true end
  | JDict kvs => match kvs with [] => false | _ => true end
  end.

Definition is_list (j : json) : bool :=
  match j with JList _ => true | _ => false end.

Definition is_dict (j : json) : bool :=
  match j with JDict _ => true | _ => false end.

(** The value stored under [k], if any. *)
Fixpoint lookup (k : string) (kvs : list (string * json)) : option json :=
  match kvs with
  | [] => None
  | (k', v) :: rest => if String.eqb k k' then Some v else lookup k rest
  end.

(** [obj.get(k, default)]; only a dict has a [get]. *)
Definition get (obj : json) (k : string) (default : json) : result json :=
  match obj with
  | JDict kvs => Ok (match lookup k kvs with Some v => v | None => default end)
  | _ => Raise (OtherException "AttributeError"
                  ("'" +:+ type_name obj +:+ "' object has no attribute 'get'"))
  end.

(** [obj.get(k)] where [k] is a configuration value that may be [None]:
    no key of a decoded JSON object is [None]. *)
Definition get_opt (obj : json) (k : option string) : result json :=
  match k with
  | Some k => get obj k JNull
  | None => match obj with
            | JDict _ => Ok JNull
            | _ => get obj "" JNull
            end
  end.

(** [obj[:stop]]: lists and strings can be sliced; a dict rejects a slice
    as a key (a [TypeError] before Python 3.12, a [KeyError] since) and the
    other values are not subscriptable. *)
Definition slice_to (obj : json) (stop : Z) : result json :=
  match obj with
  | JList xs => Ok (JList (Py.slice_to xs stop))
  | JStr s =>
      Ok (JStr (String.string_of_list_ascii (Py.slice_to (String.list_ascii_of_string s) stop)))
  | JDict _ => Raise (OtherException "TypeError" "unhashable type: 'slice'")
  | _ => Raise (OtherException "TypeError"
                  ("'" +:+ type_name obj +:+ "' object is not subscriptable"))
  end.

(** The elements [for x in obj] runs through. *)
Definition iter (obj : json) : result (list json) :=
  match obj with
  | JList xs => Ok xs
  | JStr s => Ok (map (fun c => JStr (String c "")) (String.list_ascii_of_string s))
  | JDict kvs => Ok (map (fun kv => JStr (fst kv)) kvs)
  | _ => Raise (OtherException "TypeError"
                  ("'" +:+ type_name obj +:+ "' object is not iterable"))
  end.

(** A configuration string as a Python value. *)
Definition of_opt (s : option string) : json :=
  match s with Some s => JStr s | None => JNull end.

(** How an f-string prints a configuration string. *)
Definition fmt_opt (s : option string) : string :=
  match s with Some s => s | None => "None" end.

End PyJson.

(** ** src/models/coin.py *)

Module Category.
Record t := Build { id : string; name : string }.
End Category.

Module CategoryCoins.
(** The dictionary [{"category": ..., "coins": [...]}]. *)
Record t := Build { category : json; coins : list json }.
End CategoryCoins.

Module CategoryList.
(** The dictionary [{"categories": [...]}]. *)
Record t := Build { categories : list Category.t }.
End CategoryList.

(** ** The outbound HTTP calls *)

(** The arguments of one [requests.get] call. *)
Record request := Request
  { url : string;
    params : option (list (string * json));
    headers : list (string * option string);
    timeout : Z }.

(** The provider: what [requests.get(...)], [raise_for_status()] and
    [json()] together produce for a request, given the requests made
    before it.  [Raise (HTTPError status msg)] is an error status,
    [Raise (RequestException msg)] a transport failure. *)
Definition Upstream := list request -> request -> result json.

(** A computation that may call the provider and may raise: it extends the
    log of requests made so far. *)
Definition Gateway (A : Type) := list request -> result A * list request.

#[global] Instance Gateway_ret : MRet Gateway := fun A a log => (Ok a, log).
#[global] Instance Gateway_bind : MBind Gateway := fun A B f m log =>
  match m log with
  | (Ok a, log') => f a log'
  | (Raise e, log') => (Raise e, log')
  end.

#[global] Instance Gateway_fmap : FMap Gateway := fun A B f m =>
  a ← m; mret (f a).

Definition lift {A} (r : result A) : Gateway A := fun log => (r, log).

Definition raise {A} (e : exn) : Gateway A := lift (Raise e).

(** [try: m  except ... as e: handler e] *)
Definition try_except {A} (m : Gateway A) (handler : exn -> Gateway A) : Gateway A :=
  fun log =>
    match m log with
    | (Ok a, log') => (Ok a, log')
    | (Raise e, log') => handler e log'
    end.

Definition requests_get (upstream : Upstream) (req : request) : Gateway json :=
  fun log => (upstream log req, log ++ [req]).

(** Run a computation from an empty log. *)
Definition run {A} (m : Gateway A) : result A * list request := m [].

(** ** src/services/coingecko_service.py *)

Module CoinGeckoService.

(** The attributes set by [__init__] from the environment; [os.getenv]
    gives [None] for a variable that is not set. *)
Record t := Build
  { base_url : option string;
    default_currency : option string;
    api_key : option string }.

Definition headers (self : t) : list (string * option string) :=
  [("X-CG-Demo-API-Key", api_key self)].

(** [except HTTPException as e: raise e from e] followed by
    [except Exception as e: raise HTTPException(status_code, detail e)]. *)
Definition reraise_or {A} (status_code : Z) (detail : exn -> string) (e : exn)
  : Gateway A :=
  match e with
  | HTTPException _ _ => raise e
  | _ => raise (HTTPException status_code (detail e))
  end.

(** The eight fields copied from one entry of [coins/markets]. *)
Definition coin_fields (coin : json) : result json :=
  id ← PyJson.get coin "id" JNull;
  symbol ← PyJson.get coin "symbol" JNull;
  name ← PyJson.get coin "name" JNull;
  current_price ← PyJson.get coin "current_price" JNull;
  market_cap ← PyJson.get coin "market_cap" JNull;
  market_cap_rank ← PyJson.get coin "market_cap_rank" JNull;
  price_change_24h ← PyJson.get coin "price_change_24h" JNull;
  price_change_percentage_24h ← PyJson.get coin "price_change_percentage_24h" JNull;
  mret (JDict [("id", id); ("symbol", symbol); ("name", name);
               ("current_price", current_price); ("market_cap", market_cap);
               ("market_cap_rank", market_cap_rank);
               ("price_change_24h", price_change_24h);
               ("price_change_percentage_24h", price_change_percentage_24h)]).

(** [[{...} for coin in data]] *)
Definition coin_rows (data : json) : result (list json) :=
  coins ← PyJson.iter data;
  mapM coin_fields coins.

Section Gateway.

Variable upstream : Upstream.
Variable self : t.

(** The arguments [_make_request] passes to [requests.get]. *)
Definition request_for (endpoint : string) (params : option (list (string * json)))
  : request :=
  Request (PyJson.fmt_opt (base_url self) +:+ "/" +:+ endpoint)
          params (headers self) 200.

Definition _make_request (endpoint : string) (params : option (list (string * json)))
  : Gateway json :=
  try_except
    (requests_get upstream (request_for endpoint params))
    (fun e =>
       match e with
       | HTTPError status_code msg =>
           if status_code =? 429 then
             raise (HTTPException 429 "Rate limit exceeded. Please try again later.")
           else raise (HTTPException status_code msg)
       | RequestException msg =>
           raise (HTTPException 503 ("Error fetching data from CoinGecko: " +:+ msg))
       | _ => raise e
       end).

Definition get_coins_list (page per_page : Z) : Gateway (list json) :=
  try_except
    (let params :=
       [("vs_currency", PyJson.of_opt (default_currency self));
        ("order", JStr "market_cap_desc");
        ("per_page", JInt (per_page + 1));
        ("page", JInt page);
        ("sparkline", JBool false)] in
     data ← _make_request "coins/markets" (Some params);
     if negb (PyJson.truthy data) then mret []
     else
       data ← lift (PyJson.slice_to data per_page);
       lift (coin_rows data))
    (reraise_or 500 (fun e => "Internal server error: " +:+ str_exn e)).

Section Pydantic.

(** The constructor pydantic generates for [Category] ([id: str],
    [name: str]): it validates its two arguments and either builds the
    object or raises. *)
Variable Category_init : json -> json -> result Category.t.

(** [Category.from_coingecko] *)
Definition from_coingecko (data : json) : result Category.t :=
  category_id ← PyJson.get data "category_id" (JStr "");
  name ← PyJson.get data "name" (JStr "");
  Category_init category_id name.

(** The loop [for category in data] of [get_coin_categories]. *)
Fixpoint collect_categories (data : list json) (categories : list Category.t)
  : result (list Category.t) :=
  match data with
  | [] => Ok categories
  | category :: data =>
      if PyJson.is_dict category then
        c ← from_coingecko category;
        collect_categories data (categories ++ [c])
      else collect_categories data categories
  end.

Definition get_coin_categories : Gateway (list Category.t) :=
  try_except
    (data ← _make_request "coins/categories/list" None;
     match data with
     | JList data => lift (collect_categories data [])
     | _ => mret []
     end)
    (reraise_or 500 (fun e => "Internal server error: " +:+ str_exn e)).

End Pydantic.

(** The dictionary [get_coin_by_id] builds from the payload, entry by
    entry. *)
Definition coin_detail (data : json) : result json :=
  id ← PyJson.get data "id" JNull;
  symbol ← PyJson.get data "symbol" JNull;
  name ← PyJson.get data "name" JNull;
  current_price ←
    (PyJson.get data "market_data" (JDict []) ≫= fun market_data =>
     PyJson.get market_data "current_price" (JDict []) ≫= fun current_price =>
     PyJson.get_opt current_price (default_currency self));
  market_cap ←
    (PyJson.get data "market_data" (JDict []) ≫= fun market_data =>
     PyJson.get market_data "market_cap" (JDict []) ≫= fun market_cap =>
     PyJson.get_opt market_cap (default_currency self));
  market_cap_rank ← PyJson.get data "market_cap_rank" JNull;
  price_change_24h ←
    (PyJson.get data "market_data" (JDict []) ≫= fun market_data =>
     PyJson.get market_data "price_change_24h" JNull);
  price_change_percentage_24h ←
    (PyJson.get data "market_data" (JDict []) ≫= fun market_data =>
     PyJson.get market_data "price_change_percentage_24h" JNull);
  description ← PyJson.get data "description" JNull;
  categories ← PyJson.get data "categories" JNull;
  homepage ←
    (PyJson.get data "links" (JDict []) ≫= fun links =>
     PyJson.get links "homepage" (JList []));
  blockchain_site ←
    (PyJson.get data "links" (JDict []) ≫= fun links =>
     PyJson.get links "blockchain_site" (JList []));
  official_forum_url ←
    (PyJson.get data "links" (JDict []) ≫= fun links =>
     PyJson.get links "official_forum_url" (JList []));
  mret (JDict
    [("id", id); ("symbol", symbol); ("name", name);
     ("current_price", current_price); ("market_cap", market_cap);
     ("market_cap_rank", market_cap_rank);
     ("price_change_24h", price_change_24h);
     ("price_change_percentage_24h", price_change_percentage_24h);
     ("description", description); ("categories", categories);
     ("links", JDict [("homepage", homepage);
                      ("blockchain_site", blockchain_site);
                      ("official_forum_url", official_forum_url)])]).

Definition get_coin_by_id (coin_id : string) : Gateway json :=
  let params :=
    [("vs_currency", PyJson.of_opt (default_currency self));
     ("localization", JBool false);
     ("tickers", JBool false);
     ("market_data", JBool true);
     ("community_data", JBool false);
     ("developer_data", JBool false);
     ("sparkline", JBool false)] in
  try_except
    (data ← _make_request ("coins/" +:+ coin_id) (Some params);
     lift (coin_detail data))
    (reraise_or 404 (fun _ => "Coin not found: " +:+ coin_id)).

Definition get_coins_by_category (category_id : string) (page per_page : Z)
  : Gateway CategoryCoins.t :=
  try_except
    (category_data ← _make_request ("coins/categories/" +:+ category_id) None;
     if negb (PyJson.truthy category_data) then
       mret (CategoryCoins.Build (JStr category_id) [])
     else
       let params :=
         [("vs_currency", PyJson.of_opt (default_currency self));
          ("category", JStr category_id);
          ("order", JStr "market_cap_desc");
          ("per_page", JInt per_page);
          ("page", JInt page);
          ("sparkline", JBool false)] in
       coins_data ← _make_request "coins/markets" (Some params);
       category_coins ← lift (coin_rows coins_data);
       category ← lift (PyJson.get category_data "name" (JStr category_id));
       mret (CategoryCoins.Build category category_coins))
    (reraise_or 500 (fun e => "Error fetching category coins: " +:+ str_exn e)).

End Gateway.

(** The four operations of the gateway, and what each returns. *)
Inductive operation :=
| ListCoins (page per_page : Z)
| ListCategories
| GetCoin (coin_id : string)
| ListCoinsByCategory (category_id : string) (page per_page : Z).

Inductive response :=
| CoinsResponse (coins : list json)
| CategoriesResponse (categories : list Category.t)
| CoinResponse (coin : json)
| CategoryCoinsResponse (r : CategoryCoins.t).

Definition perform (upstream : Upstream) (self : t)
    (Category_init : json -> json -> result Category.t) (op : operation)
  : Gateway response :=
  match op with
  | ListCoins page per_page =>
      CoinsResponse <$> get_coins_list upstream self page per_page
  | ListCategories =>
      CategoriesResponse <$> get_coin_categories upstream self Category_init
  | GetCoin coin_id =>
      CoinResponse <$> get_coin_by_id upstream self coin_id
  | ListCoinsByCategory category_id page per_page =>
      CategoryCoinsResponse <$>
        get_coins_by_category upstream self category_id page per_page
  end.

End CoinGeckoService.

(** ** src/main.py *)

Module Main.

Section Endpoints.

Variable upstream : Upstream.
Variable coingecko_service : CoinGeckoService.t.

(** The body of the handler of [GET /api/v1/coins]. *)
Definition list_coins (page per_page : Z) : Gateway (PaginatedResponse.t json) :=
  let '(page, per_page) := validate_pagination_params page per_page MAX_PER_PAGE in
  coins ← CoinGeckoService.get_coins_list upstream coingecko_service page per_page;
  let total :=
    match coins with
    | [] => page * per_page
    | _ => page * per_page + per_page
    end in
  mret (PaginatedResponse.Build page per_page total coins).

(** The body of the handler of [GET /api/v1/categories/{category_id}/coins]. *)
Definition get_coins_by_category (category_id : string) (page per_page : Z)
  : Gateway CategoryCoins.t :=
  let '(page, per_page) := validate_pagination_params page per_page MAX_PER_PAGE in
  try_except
    (CoinGeckoService.get_coins_by_category upstream coingecko_service
       category_id page per_page)
    raise.

(** The body of the handler of [GET /api/v1/coins/{coin_id}]. *)
Definition get_coin (coin_id : string) : Gateway json :=
  try_except
    (CoinGeckoService.get_coin_by_id upstream coingecko_service coin_id)
    raise.

Section Categories.

Variable Category_init : json -> json -> result Category.t.

(** The body of the handler of [GET /api/v1/categories]. *)
Definition list_categories : Gateway CategoryList.t :=
  categories ← CoinGeckoService.get_coin_categories upstream coingecko_service
                 Category_init;
  mret (CategoryList.Build categories).

End Categories.

End Endpoints.

End Main.

(** ** Vocabulary of the properties *)

(** [needle in hay] on Python strings. *)
Fixpoint contains (needle hay : string) : bool :=
  if String.prefix needle hay then true
  else match hay with
       | EmptyString => false
       | String _ rest => contains needle rest
       end.

(** [s.lower()] on ASCII letters. *)
Definition lower_ascii (c : Ascii.ascii) : Ascii.ascii :=
  let n := Ascii.nat_of_ascii c in
  if ((65 <=? n) && (n <=? 90))%nat then Ascii.ascii_of_nat (n + 32) else c.

Fixpoint lower (s : string) : string :=
  match s with
  | EmptyString => EmptyString
  | String c rest => String (lower_ascii c) (lower rest)
  end.

(** How [_make_request] reports a failure of the call to the provider. *)
Definition gateway_error (e : exn) : exn :=
  match e with
  | HTTPError status_code msg =>
      if status_code =? 429
      then HTTPException 429 "Rate limit exceeded. Please try again later."
      else HTTPException status_code msg
  | RequestException msg =>
      HTTPException 503 ("Error fetching data from CoinGecko: " +:+ msg)
  | _ => e
  end.

(** The failures of a call to the provider that [_make_request] handles:
    an error status and a transport failure. *)
Definition provider_failure (e : exn) : Prop :=
  match e with
  | HTTPError _ _ | RequestException _ => True
  | _ => False
  end.

(** A computation that, when it raises, raises an ordinary Python
    exception (never an [HTTPException]). *)
Definition raises_plain {A} (r : result A) : Prop :=
  forall e, r = Raise e -> exists cls msg, e = OtherException cls msg.

(** The two [except] clauses that close every operation, on a result:
    an [HTTPException] goes through, anything else is reported with the
    given status. *)
Definition on_exception {A} (status_code : Z) (detail : exn -> string)
    (r : result A) : result A :=
  match r with
  | Ok a => Ok a
  | Raise (HTTPException c d) => Raise (HTTPException c d)
  | Raise e => Raise (HTTPException status_code (detail e))
  end.

(** The status code an operation answers with when it raises. *)
Definition status_of {A} (r : result A) : option Z :=
  match r with
  | Raise (HTTPException status_code _) => Some status_code
  | _ => None
  end.

(** A [Category] constructor that accepts strings only, as pydantic does
    in its default mode for a field declared [str]. *)
Definition Category_init_strict (category_id name : json) : result Category.t :=
  match category_id, name with
  | JStr i, JStr n => Ok (Category.Build i n)
  | _, _ => Raise (OtherException "ValidationError"
                     "validation error for Category")
  end.

(** A provider that answers every request with the same payload. *)
Definition always (r : result json) : Upstream := fun _ _ => r.

(** A provider that answers the requests in turn from a list of canned
    responses (as a mock with [side_effect] does). *)
Definition in_turn (rs : list (result json)) : Upstream :=
  fun log _ =>
    match rs !! length log with
    | Some r => r
    | None => Raise (OtherException "StopIteration" "")
    end.

(** [n] raw coin records [{"id": "coin0"}, {"id": "coin1"}, ...], as the
    test suite builds them. *)
Definition raw_coins (n : nat) : list json :=
  map (fun i => JDict [("id", JStr ("coin" +:+ pretty (Z.of_nat i)))]) (seq 0 n).

(** The service of the test suite (tests/conftest.py environment). *)
Definition test_service : CoinGeckoService.t :=
  CoinGeckoService.Build (Some "https://api.coingecko.com/api/v3")
                         (Some "cad") (Some "key").

(** The exceptions FastAPI turns into a response with their status code. *)
Definition is_http_exception (e : exn) : Prop :=
  match e with
  | HTTPException _ _ => True
  | _ => False
  end.

(** The requests a computation adds to the log. *)
Definition sent {A} (m : Gateway A) (log : list request) : list request :=
  drop (length log) (snd (m log)).

(** The integer a request carries under a query parameter. *)
Definition int_param (k : string) (req : request) : option Z :=
  match params req with
  | Some ps => match PyJson.lookup k ps with
               | Some (JInt n) => Some n
               | _ => None
               end
  | None => None
  end.

(** The keys of a reshaped coin, in order. *)
Definition coin_keys : list string :=
  ["id"; "symbol"; "name"; "current_price"; "market_cap"; "market_cap_rank";
   "price_change_24h"; "price_change_percentage_24h"].

(** [d.get(k)] of a dictionary given by its entries. *)
Definition value_of (k : string) (kvs : list (string * json)) : json :=
  match PyJson.lookup k kvs with
  | Some v => v
  | None => JNull
  end.

(** * Properties *)

Ltac conjs := repeat match goal with |- _ /\ _ => split end.

(** ** Slices *)

Section Slices.

Context {A : Type}.
Implicit Types (xs : list A) (start stop : Z).

Lemma slice_index_nonneg (len : nat) (i : Z) :
  0 <= i -> Py.slice_index len i = Nat.min (Z.to_nat i) len.
Proof.
  intros Hi. unfold Py.slice_index.
  destruct (Z.ltb_spec i 0); lia.
Qed.

(** With bounds [0 <= start <= stop] a slice is a [take] of a [drop]. *)
Lemma slice_window xs start stop :
  0 <= start -> 0 <= stop - start ->
  Py.slice xs start stop
  = take (Z.to_nat (stop - start)) (drop (Z.to_nat start) xs).
Proof.
  intros Hs Hw. unfold Py.slice.
  rewrite !slice_index_nonneg by lia.
  destruct (Nat.le_gt_cases (length xs) (Z.to_nat start)) as [Hge|Hlt].
  - rewrite Nat.min_r by lia.
    rewrite !(drop_ge xs) by lia. by rewrite !take_nil.
  - rewrite (Nat.min_l (Z.to_nat start)) by lia.
    destruct (Nat.le_gt_cases (Z.to_nat stop) (length xs)) as [Hin|Hout].
    + rewrite Nat.min_l by lia. f_equal. lia.
    + rewrite Nat.min_r by lia.
      rewrite !take_ge; [done | |]; rewrite length_drop; lia.
Qed.

Lemma slice_to_take xs stop :
  0 <= stop -> Py.slice_to xs stop = take (Z.to_nat stop) xs.
Proof.
  intros Hs. unfold Py.slice_to.
  rewrite slice_window by lia. rewrite drop_0. f_equal. lia.
Qed.

Lemma length_slice_to xs stop :
  0 <= stop -> Py.len (Py.slice_to xs stop) <= stop.
Proof.
  intros Hs. rewrite slice_to_take by done.
  unfold Py.len. rewrite length_take. lia.
Qed.

(** A negative bound drops elements from the end instead. *)
Lemma slice_to_negative xs stop :
  stop < 0 ->
  Py.slice_to xs stop = take (Z.to_nat (Z.of_nat (length xs) + stop)) xs.
Proof.
  intros Hs. unfold Py.slice_to, Py.slice.
  rewrite (slice_index_nonneg _ 0) by lia.
  unfold Py.slice_index. destruct (Z.ltb_spec stop 0); [|lia].
  simpl. rewrite drop_0. f_equal. lia.
Qed.

End Slices.

(** ** The slicing helper *)

Section Paginate.

Context {A : Type}.
Implicit Types (xs : list A) (page per_page : Z).

Lemma paginate_items xs page per_page :
  1 <= page -> 0 <= per_page ->
  PaginatedResponse.items (paginate_response xs page per_page)
  = take (Z.to_nat per_page) (drop (Z.to_nat ((page - 1) * per_page)) xs).
Proof.
  intros Hp Hpp. unfold paginate_response, Py.len. simpl.
  assert (0 <= (page - 1) * per_page) by nia.
  destruct (Z.ltb_spec ((page - 1) * per_page) (Z.of_nat (length xs))).
  - rewrite slice_window by lia. f_equal. lia.
  - rewrite drop_ge by lia. by rewrite take_nil.
Qed.

Lemma paginate_beyond xs page per_page :
  Py.len xs <= (page - 1) * per_page ->
  PaginatedResponse.items (paginate_response xs page per_page) = [].
Proof.
  intros H. unfold paginate_response. simpl.
  destruct (Z.ltb_spec ((page - 1) * per_page) (Py.len xs)); [lia | done].
Qed.

Lemma paginate_nonempty xs page per_page :
  1 <= page -> 1 <= per_page -> (page - 1) * per_page < Py.len xs ->
  PaginatedResponse.items (paginate_response xs page per_page) <> [].
Proof.
  intros Hp Hpp Hlt Hnil.
  apply (f_equal length) in Hnil.
  rewrite paginate_items in Hnil by lia.
  rewrite length_take, length_drop in Hnil.
  unfold Py.len in Hlt. simpl in Hnil. nia.
Qed.

Lemma pages_upto_take xs per_page (n : nat) :
  0 <= per_page ->
  pages_upto xs per_page n = take (n * Z.to_nat per_page) xs.
Proof.
  intros Hpp. unfold pages_upto.
  induction n as [|n IH].
  - by rewrite take_0.
  - rewrite seq_S, flat_map_app, IH. cbn [flat_map].
    rewrite app_nil_r, Nat.add_0_l.
    rewrite paginate_items by lia.
    replace (Z.to_nat ((Z.of_nat n + 1 - 1) * per_page))
      with (n * Z.to_nat per_page)%nat by nia.
    rewrite take_drop_commute.
    set (m := (n * Z.to_nat per_page)%nat).
    replace (S n * Z.to_nat per_page)%nat with (m + Z.to_nat per_page)%nat
      by (unfold m; lia).
    assert (E : take m xs = take m (take (m + Z.to_nat per_page) xs))
      by (rewrite take_take; f_equal; lia).
    rewrite E. apply take_drop.
Qed.

End Paginate.
(** ** The pagination normalizer *)

(** C1. For all integers [page] and [per_page], with [max_per_page = 100],
    the normalizer returns the pair [(max(page, 1), p)] where [p] is 10 when
    [per_page < 1] (the default, not a clamp to 1) and [min(per_page, 100)]
    otherwise.  It is a total function, so no input makes it raise, and its
    result satisfies [page >= 1] and [1 <= per_page <= 100]. *)
Theorem validate_pagination_params_spec (page per_page : Z) :
  validate_pagination_params page per_page 100
  = (Z.max page 1, if per_page <? 1 then 10 else Z.min per_page 100)
  /\ 1 <= fst (validate_pagination_params page per_page 100)
  /\ 1 <= snd (validate_pagination_params page per_page 100) <= 100.
Proof.
  unfold validate_pagination_params. simpl.
  destruct (Z.ltb_spec per_page 1); repeat split; try lia.
Qed.

Lemma validate_pagination_params_normalized (page per_page : Z) :
  normalized (fst (validate_pagination_params page per_page MAX_PER_PAGE))
             (snd (validate_pagination_params page per_page MAX_PER_PAGE)).
Proof.
  unfold normalized, MAX_PER_PAGE, validate_pagination_params. simpl.
  destruct (Z.ltb_spec per_page 1); lia.
Qed.

(* tests/test_pagination.py *)
Example test_validate_pagination_params :
  validate_pagination_params 1 10 100 = (1, 10)
  /\ snd (validate_pagination_params 1 200 100) = 100
  /\ validate_pagination_params 0 0 100 = (1, 10).
Proof. by conjs. Qed.

Example test_paginate_response :
  let items := seq 0 25 in
  paginate_response items 1 10
  = PaginatedResponse.Build 1 10 25 (Py.slice_to items 10)
  /\ paginate_response items 2 10
     = PaginatedResponse.Build 2 10 25 (Py.slice items 10 20)
  /\ paginate_response items 3 10
     = PaginatedResponse.Build 3 10 25 (Py.slice items 20 25)
  /\ paginate_response items 4 10 = PaginatedResponse.Build 4 10 25 []
  /\ paginate_response items 1 5
     = PaginatedResponse.Build 1 5 25 (Py.slice_to items 5)
  /\ paginate_response (@nil nat) 1 10 = PaginatedResponse.Build 1 10 0 [].
Proof. by conjs. Qed.

(** ** The slicing helper on normalized parameters *)

(** C2. For every sequence [xs] and every normalized [(page, per_page)],
    with [start = (page-1)*per_page]: the items returned are the window of
    [xs] from index [start] to [start + per_page] (element [i] of the
    result is element [start + i] of [xs], for [i < per_page], and there
    are [min(per_page, len - start)] of them); they are empty when [start]
    is at or beyond the length; [total] is the length of [xs] whatever the
    page.  For a sequence of 25 items, page 3 of 10 is the 5 items at
    indices 20..24 and page 4 of 10 is empty. *)
Theorem paginate_response_window {A} (xs : list A) (page per_page : Z) :
  normalized page per_page ->
  let r := paginate_response xs page per_page in
  let start := Z.to_nat ((page - 1) * per_page) in
  PaginatedResponse.items r = take (Z.to_nat per_page) (drop start xs)
  /\ (forall i : nat, (i < Z.to_nat per_page)%nat ->
        PaginatedResponse.items r !! i = xs !! (start + i)%nat)
  /\ length (PaginatedResponse.items r)
     = Nat.min (Z.to_nat per_page) (length xs - start)
  /\ (Py.len xs <= (page - 1) * per_page -> PaginatedResponse.items r = [])
  /\ PaginatedResponse.total r = Py.len xs
  /\ PaginatedResponse.page r = page
  /\ PaginatedResponse.per_page r = per_page
  /\ (length xs = 25%nat ->
        PaginatedResponse.items (paginate_response xs 3 10) = drop 20 xs
        /\ length (PaginatedResponse.items (paginate_response xs 3 10)) = 5%nat
        /\ (forall i : nat, (i < 5)%nat ->
              PaginatedResponse.items (paginate_response xs 3 10) !! i
              = xs !! (20 + i)%nat)
        /\ PaginatedResponse.items (paginate_response xs 4 10) = []
        /\ PaginatedResponse.total (paginate_response xs 3 10) = 25
        /\ PaginatedResponse.total (paginate_response xs 4 10) = 25).
Proof.
  intros (Hp & Hlo & Hhi) r start. subst r start.
  assert (Hitems := paginate_items xs page per_page ltac:(lia) ltac:(lia)).
  conjs.
  - exact Hitems.
  - intros i Hi. rewrite Hitems, lookup_take_lt by done. apply lookup_drop.
  - rewrite Hitems, length_take, length_drop. done.
  - apply paginate_beyond.
  - done.
  - done.
  - done.
  - intros H25.
    assert (H3 : PaginatedResponse.items (paginate_response xs 3 10) = drop 20 xs).
    { rewrite paginate_items by lia.
      change (Z.to_nat ((3 - 1) * 10)) with 20%nat.
      apply take_ge. rewrite length_drop. simpl. lia. }
    conjs.
    + exact H3.
    + rewrite H3, length_drop. lia.
    + intros i Hi. rewrite H3. apply lookup_drop.
    + apply paginate_beyond. unfold Py.len. lia.
    + simpl. unfold Py.len. lia.
    + simpl. unfold Py.len. lia.
Qed.

Lemma paginate_response_window_witness :
  normalized 3 10
  /\ PaginatedResponse.items (paginate_response (seq 0 25) 3 10)
     = [20; 21; 22; 23; 24]%nat
  /\ PaginatedResponse.items (paginate_response (seq 0 25) 4 10) = []
  /\ PaginatedResponse.total (paginate_response (seq 0 25) 4 10) = 25.
Proof.
  assert (Hn : normalized 3 10) by (unfold normalized, MAX_PER_PAGE; lia).
  split; [exact Hn|].
  destruct (paginate_response_window (seq 0 25) 3 10 Hn)
    as (Hitems & _ & _ & _ & _ & _ & _ & H25).
  destruct (H25 eq_refl) as (_ & _ & _ & H4 & _ & Ht).
  split; [exact Hitems|]. split; [exact H4 | exact Ht].
Defined.

(** ** Pages partition the sequence *)

(** C10. For every list [xs] and every [per_page >= 1]: the items of pages
    1, 2, ..., n put one after the other are the first [n * per_page]
    elements of [xs], hence exactly [xs], in order, with nothing repeated
    or lost, as soon as [n * per_page] reaches the length; a page whose
    start index is at or beyond the length is empty; and once a page is
    empty every later page is empty too, so the non-empty pages are an
    initial run. *)
Theorem paginate_response_partition {A} (xs : list A) (per_page : Z) :
  1 <= per_page ->
  (forall n : nat,
     pages_upto xs per_page n = take (n * Z.to_nat per_page) xs)
  /\ (forall n : nat,
        Py.len xs <= Z.of_nat n * per_page -> pages_upto xs per_page n = xs)
  /\ (exists n : nat, pages_upto xs per_page n = xs)
  /\ (forall page,
        Py.len xs <= (page - 1) * per_page ->
        PaginatedResponse.items (paginate_response xs page per_page) = [])
  /\ (forall p q,
        1 <= p <= q ->
        PaginatedResponse.items (paginate_response xs p per_page) = [] ->
        PaginatedResponse.items (paginate_response xs q per_page) = []).
Proof.
  intros Hpp.
  assert (Hall : forall n : nat,
             Py.len xs <= Z.of_nat n * per_page -> pages_upto xs per_page n = xs).
  { intros n Hn. rewrite pages_upto_take by lia.
    apply take_ge. unfold Py.len in Hn. nia. }
  conjs.
  - intros n. apply pages_upto_take. lia.
  - exact Hall.
  - exists (length xs). apply Hall. unfold Py.len. nia.
  - intros page. apply paginate_beyond.
  - intros p q Hpq Hnil.
    destruct (Z.lt_ge_cases ((p - 1) * per_page) (Py.len xs)) as [Hlt|Hge].
    + exfalso. by apply (paginate_nonempty xs p per_page); try lia.
    + apply paginate_beyond. nia.
Qed.

Lemma paginate_response_partition_witness :
  1 <= 10
  /\ pages_upto (seq 0 25) 10 3 = seq 0 25
  /\ PaginatedResponse.items (paginate_response (seq 0 25) 4 10) = [].
Proof.
  assert (H1 : 1 <= 10) by lia.
  split; [exact H1|].
  destruct (paginate_response_partition (seq 0 25) 10 H1)
    as (_ & Hall & _ & Hbeyond & _).
  split.
  - apply (Hall 3%nat). vm_compute. discriminate.
  - apply Hbeyond. vm_compute. discriminate.
Defined.

(** ** The gateway: one call to the provider *)

Section GatewayFacts.

Variable upstream : Upstream.
Variable self : CoinGeckoService.t.

Abbreviation request_for := (CoinGeckoService.request_for self).
Abbreviation _make_request := (CoinGeckoService._make_request upstream self).

(** [_make_request] issues exactly one request and either passes the
    payload on or reports the failure as an [HTTPException]. *)
Lemma make_request_run endpoint params log :
  _make_request endpoint params log
  = (match upstream log (request_for endpoint params) with
     | Ok data => Ok data
     | Raise e => Raise (gateway_error e)
     end,
     log ++ [request_for endpoint params]).
Proof.
  unfold CoinGeckoService._make_request, try_except, requests_get.
  destruct (upstream log _) as [data|e]; [done|].
  destruct e as [c d|c m|m|cls m]; try done.
  simpl. by destruct (c =? 429).
Qed.

End GatewayFacts.

(* tests/test_coingecko_service.py *)
Example test_make_request_rate_limit :
  fst (run (CoinGeckoService._make_request
              (always (Raise (HTTPError 429 "429 Client Error")))
              test_service "test-endpoint" None))
  = Raise (HTTPException 429 "Rate limit exceeded. Please try again later.").
Proof. reflexivity. Qed.

Example test_make_request_success :
  run (CoinGeckoService._make_request (always (Ok (JDict []))) test_service
         "test-endpoint" None)
  = (Ok (JDict []),
     [Request "https://api.coingecko.com/api/v3/test-endpoint" None
              [("X-CG-Demo-API-Key", Some "key")] 200]).
Proof. reflexivity. Qed.

Example test_get_coins_list_with_pagination :
  let coin i := JDict [("id", JStr ("coin" +:+ pretty (Z.of_nat i)))] in
  match fst (run (CoinGeckoService.get_coins_list
                    (always (Ok (JList (map coin (seq 0 15)))))
                    test_service 1 10)) with
  | Ok result =>
      length result = 10%nat /\
      (result !! 0%nat ≫= fun c =>
         match c with JDict kvs => PyJson.lookup "id" kvs | _ => None end)
      = Some (JStr "coin0")
  | Raise _ => False
  end.
Proof. vm_compute. done. Qed.

Example test_get_coins_list_exception :
  fst (run (CoinGeckoService.get_coins_list
              (always (Raise (OtherException "Exception" "Test exception")))
              test_service 1 10))
  = Raise (HTTPException 500 "Internal server error: Test exception").
Proof. reflexivity. Qed.

Example test_get_coin_by_id_exception :
  fst (run (CoinGeckoService.get_coin_by_id
              (always (Raise (OtherException "Exception" "Test exception")))
              test_service "bitcoin"))
  = Raise (HTTPException 404 "Coin not found: bitcoin").
Proof. reflexivity. Qed.

Example test_get_coin_by_id_not_found :
  status_of (fst (run (CoinGeckoService.get_coin_by_id
                         (always (Raise (HTTPError 404 "404 Client Error")))
                         test_service "invalid-coin")))
  = Some 404.
Proof. reflexivity. Qed.

Example test_get_coin_categories_success :
  fst (run (CoinGeckoService.get_coin_categories
              (always (Ok (JList
                 [JDict [("category_id", JStr "defi"); ("name", JStr "DeFi")];
                  JDict [("category_id", JStr "nft"); ("name", JStr "NFT")]])))
              test_service Category_init_strict))
  = Ok [Category.Build "defi" "DeFi"; Category.Build "nft" "NFT"].
Proof. reflexivity. Qed.

Example test_get_coin_categories_empty_response :
  fst (run (CoinGeckoService.get_coin_categories
              (always (Ok (JStr "not a list"))) test_service Category_init_strict))
  = Ok [].
Proof. reflexivity. Qed.

Example test_get_coins_by_category_success :
  fst (run (CoinGeckoService.get_coins_by_category
              (in_turn [Ok (JDict [("name", JStr "DeFi Ecosystem")]);
                        Ok (JList [JDict [("id", JStr "uniswap");
                                          ("symbol", JStr "uni")]])])
              test_service "defi" 1 10))
  = Ok (CategoryCoins.Build (JStr "DeFi Ecosystem")
          [JDict [("id", JStr "uniswap"); ("symbol", JStr "uni");
                  ("name", JNull); ("current_price", JNull);
                  ("market_cap", JNull); ("market_cap_rank", JNull);
                  ("price_change_24h", JNull);
                  ("price_change_percentage_24h", JNull)]]).
Proof. reflexivity. Qed.

Example test_get_coins_by_category_empty_category_data :
  run (CoinGeckoService.get_coins_by_category (always (Ok JNull))
         test_service "defi" 1 10)
  = (Ok (CategoryCoins.Build (JStr "defi") []),
     [Request "https://api.coingecko.com/api/v3/coins/categories/defi" None
              [("X-CG-Demo-API-Key", Some "key")] 200]).
Proof. reflexivity. Qed.

Example test_handle_network_error :
  fst (run (CoinGeckoService._make_request
              (always (Raise (RequestException "Network error")))
              test_service "test-endpoint" None))
  = Raise (HTTPException 503 "Error fetching data from CoinGecko: Network error").
Proof. reflexivity. Qed.

(** ** Results of list comprehensions *)

Lemma mapM_Ok {A B} (f : A -> result B) (l : list A) (k : list B) :
  mapM f l = Ok k <-> Forall2 (fun x y => f x = Ok y) l k.
Proof.
  revert k. induction l as [|x l IH]; intros k; simpl.
  - split.
    + intros [= <-]. constructor.
    + intros H. by inversion H.
  - unfold mbind, result_bind, mret, result_ret in *.
    destruct (f x) as [y|e] eqn:Hx.
    + destruct (mapM f l) as [k'|e'] eqn:Hl.
      * split.
        -- intros [= <-]. constructor; [done|]. by apply IH.
        -- intros H. inversion H as [|? y' ? k'' Hy Hk]; subst.
           apply IH in Hk. congruence.
      * split; [done|].
        intros H. inversion H as [|? y' ? k'' Hy Hk]; subst.
        apply IH in Hk. discriminate.
    + split; [done|].
      intros H. inversion H as [|? y' ? k'' Hy Hk]; subst. congruence.
Qed.

Lemma mapM_Ok_length {A B} (f : A -> result B) (l : list A) (k : list B) :
  mapM f l = Ok k -> length k = length l.
Proof. intros H. apply mapM_Ok in H. symmetry. by eapply Forall2_length. Qed.

(** A comprehension returns one row per element it iterates over. *)
Lemma coin_rows_length data rows :
  CoinGeckoService.coin_rows data = Ok rows ->
  exists entries, PyJson.iter data = Ok entries /\ length rows = length entries.
Proof.
  unfold CoinGeckoService.coin_rows, mbind, result_bind.
  destruct (PyJson.iter data) as [entries|e]; [|done].
  intros H. exists entries. split; [done|]. by eapply mapM_Ok_length.
Qed.

(** What is left of a payload after [data[:per_page]] has at most
    [per_page] elements. *)
Lemma iter_slice_to_bound data per_page data' entries :
  0 <= per_page ->
  PyJson.slice_to data per_page = Ok data' ->
  PyJson.iter data' = Ok entries ->
  Py.len entries <= per_page.
Proof.
  intros Hpp Hs Hi. destruct data; simplify_eq/=.
  - unfold Py.len. rewrite String.list_ascii_of_string_of_list_ascii.
    rewrite length_map. by apply length_slice_to.
  - by apply length_slice_to.
Qed.

(** ** The gateway: the four operations *)

Section Operations.

Variable upstream : Upstream.
Variable self : CoinGeckoService.t.

Abbreviation request_for := (CoinGeckoService.request_for self).
Abbreviation currency := (PyJson.of_opt (CoinGeckoService.default_currency self)).

Abbreviation coins_list_request page per_page :=
  (request_for "coins/markets"
     (Some [("vs_currency", currency);
            ("order", JStr "market_cap_desc");
            ("per_page", JInt (per_page + 1));
            ("page", JInt page);
            ("sparkline", JBool false)])).

Abbreviation categories_request := (request_for "coins/categories/list" None).

Abbreviation coin_request coin_id :=
  (request_for ("coins/" +:+ coin_id)
     (Some [("vs_currency", currency);
            ("localization", JBool false);
            ("tickers", JBool false);
            ("market_data", JBool true);
            ("community_data", JBool false);
            ("developer_data", JBool false);
            ("sparkline", JBool false)])).

Abbreviation category_request category_id :=
  (request_for ("coins/categories/" +:+ category_id) None).

Abbreviation category_coins_request category_id page per_page :=
  (request_for "coins/markets"
     (Some [("vs_currency", currency);
            ("category", JStr category_id);
            ("order", JStr "market_cap_desc");
            ("per_page", JInt per_page);
            ("page", JInt page);
            ("sparkline", JBool false)])).

Lemma try_except_lift {A} (r : result A) status_code detail log :
  try_except (lift r) (CoinGeckoService.reraise_or status_code detail) log
  = (on_exception status_code detail r, log).
Proof. destruct r as [a|[]]; done. Qed.

Lemma get_coins_list_run page per_page log :
  CoinGeckoService.get_coins_list upstream self page per_page log
  = (on_exception 500 (fun e => "Internal server error: " +:+ str_exn e)
       (match upstream log (coins_list_request page per_page) with
        | Ok data =>
            if negb (PyJson.truthy data) then Ok []
            else PyJson.slice_to data per_page ≫= CoinGeckoService.coin_rows
        | Raise e => Raise (gateway_error e)
        end),
     log ++ [coins_list_request page per_page]).
Proof.
  unfold CoinGeckoService.get_coins_list, try_except at 1.
  unfold mbind at 1, Gateway_bind at 1. rewrite make_request_run.
  destruct (upstream log _) as [data|e].
  - destruct (negb (PyJson.truthy data)); [done|].
    unfold mbind, Gateway_bind, result_bind, lift.
    destruct (PyJson.slice_to data per_page) as [data'|[]]; try done.
    by destruct (CoinGeckoService.coin_rows data') as [rows|[]].
  - by destruct (gateway_error e).
Qed.

Lemma get_coin_categories_run Category_init log :
  CoinGeckoService.get_coin_categories upstream self Category_init log
  = (on_exception 500 (fun e => "Internal server error: " +:+ str_exn e)
       (match upstream log categories_request with
        | Ok (JList data) =>
            CoinGeckoService.collect_categories Category_init data []
        | Ok _ => Ok []
        | Raise e => Raise (gateway_error e)
        end),
     log ++ [categories_request]).
Proof.
  unfold CoinGeckoService.get_coin_categories, try_except at 1.
  unfold mbind at 1, Gateway_bind at 1. rewrite make_request_run.
  destruct (upstream log _) as [data|e].
  - destruct data; try done. unfold lift.
    by destruct (CoinGeckoService.collect_categories _ _ _) as [cs|[]].
  - by destruct (gateway_error e).
Qed.

Lemma get_coin_by_id_run coin_id log :
  CoinGeckoService.get_coin_by_id upstream self coin_id log
  = (on_exception 404 (fun _ => "Coin not found: " +:+ coin_id)
       (match upstream log (coin_request coin_id) with
        | Ok data => CoinGeckoService.coin_detail self data
        | Raise e => Raise (gateway_error e)
        end),
     log ++ [coin_request coin_id]).
Proof.
  unfold CoinGeckoService.get_coin_by_id, try_except at 1.
  unfold mbind at 1, Gateway_bind at 1. rewrite make_request_run.
  destruct (upstream log _) as [data|e].
  - unfold lift. by destruct (CoinGeckoService.coin_detail self data) as [d|[]].
  - by destruct (gateway_error e).
Qed.

Lemma get_coins_by_category_run category_id page per_page log :
  CoinGeckoService.get_coins_by_category upstream self category_id page per_page log
  = match upstream log (category_request category_id) with
    | Ok category_data =>
        if negb (PyJson.truthy category_data) then
          (Ok (CategoryCoins.Build (JStr category_id) []),
           log ++ [category_request category_id])
        else
          (on_exception 500
             (fun e => "Error fetching category coins: " +:+ str_exn e)
             (match upstream (log ++ [category_request category_id])
                      (category_coins_request category_id page per_page) with
              | Ok coins_data =>
                  category_coins ← CoinGeckoService.coin_rows coins_data;
                  category ← PyJson.get category_data "name" (JStr category_id);
                  Ok (CategoryCoins.Build category category_coins)
              | Raise e => Raise (gateway_error e)
              end),
           (log ++ [category_request category_id])
             ++ [category_coins_request category_id page per_page])
    | Raise e =>
        (on_exception 500
           (fun e => "Error fetching category coins: " +:+ str_exn e)
           (Raise (gateway_error e)),
         log ++ [category_request category_id])
    end.
Proof.
  unfold CoinGeckoService.get_coins_by_category, try_except at 1.
  unfold mbind at 1, Gateway_bind at 1. rewrite make_request_run.
  destruct (upstream log _) as [category_data|e].
  - destruct (negb (PyJson.truthy category_data)); [done|].
    unfold mbind at 1, Gateway_bind at 1. rewrite make_request_run.
    destruct (upstream (log ++ _) _) as [coins_data|e].
    + unfold mbind, Gateway_bind, result_bind, lift, mret, Gateway_ret.
      destruct (CoinGeckoService.coin_rows coins_data) as [rows|[]]; try done.
      by destruct (PyJson.get category_data "name" _) as [c|[]].
    + by destruct (gateway_error e).
  - by destruct (gateway_error e).
Qed.

(** Whatever the provider answers, [get_coins_list] returns at most
    [per_page] rows when [per_page] is not negative. *)
Lemma get_coins_list_bound page per_page log items :
  0 <= per_page ->
  fst (CoinGeckoService.get_coins_list upstream self page per_page log) = Ok items ->
  Py.len items <= per_page.
Proof.
  intros Hpp. rewrite get_coins_list_run. simpl.
  destruct (upstream log _) as [data|e].
  - destruct (negb (PyJson.truthy data)).
    + intros [= <-]. unfold Py.len. simpl. lia.
    + unfold mbind, result_bind.
      destruct (PyJson.slice_to data per_page) as [data'|[]] eqn:Hs; try done.
      destruct (CoinGeckoService.coin_rows data') as [rows|[]] eqn:Hr; try done.
      intros [= <-].
      destruct (coin_rows_length _ _ Hr) as (entries & Hi & Hlen).
      unfold Py.len. rewrite Hlen.
      by apply (iter_slice_to_bound data per_page data').
  - by destruct (gateway_error e).
Qed.

(** On a list of records [get_coins_list] returns one row for each of the
    first [per_page] elements. *)
Lemma get_coins_list_records page per_page log xs :
  0 <= per_page ->
  upstream log (coins_list_request page per_page) = Ok (JList xs) ->
  Forall (fun x => PyJson.is_dict x = true) xs ->
  exists rows,
    fst (CoinGeckoService.get_coins_list upstream self page per_page log)
    = Ok rows
    /\ Forall2 (fun x row => CoinGeckoService.coin_fields x = Ok row)
               (take (Z.to_nat per_page) xs) rows
    /\ length rows = Nat.min (Z.to_nat per_page) (length xs).
Proof.
  intros Hpp Hup Hdict. rewrite get_coins_list_run, Hup. simpl.
  assert (Hrows : exists rows,
             mapM CoinGeckoService.coin_fields (take (Z.to_nat per_page) xs)
             = Ok rows).
  { apply Forall_take with (n := Z.to_nat per_page) in Hdict.
    induction Hdict as [|x l Hx _ [rows IH]]; [by exists []|].
    destruct x; try done. simpl. rewrite IH. by eexists. }
  destruct Hrows as [rows Hrows].
  destruct xs as [|x xs]; simpl.
  - rewrite take_nil in Hrows. injection Hrows as <-.
    exists []. rewrite take_nil. conjs; [done|constructor|simpl; lia].
  - unfold CoinGeckoService.coin_rows. simpl.
    rewrite slice_to_take by done. rewrite Hrows. simpl.
    exists rows. conjs; [done|by apply mapM_Ok|].
    apply mapM_Ok_length in Hrows. by rewrite Hrows, length_take.
Qed.

(** C3. For every [page] and [per_page], [get_coins_list] makes one
    request, to [coins/markets], asking for [per_page + 1] items of page
    [page] in descending market-cap order; it never returns more than
    [per_page] rows, and on a payload that is a list of records it returns
    one row per element of the first [per_page] elements of the payload (so
    10 rows for 11 raw items and [per_page = 10]): this for every page size
    the operation is called with, and more generally for every
    [per_page >= 0].  The coin-list endpoint, for every raw [page] and
    [per_page], normalizes them to [(p, pp)], asks the provider for
    [pp + 1] items of page [p], returns the rows [get_coins_list p pp]
    returns, at most [pp] of them, and sets [total] to [p*pp + pp] when
    there are rows and to [p*pp] when there are none. *)
Theorem get_coins_list_truncates page per_page log :
  snd (CoinGeckoService.get_coins_list upstream self page per_page log)
  = log ++ [coins_list_request page per_page]
  /\ (forall items,
        0 <= per_page ->
        fst (CoinGeckoService.get_coins_list upstream self page per_page log)
        = Ok items ->
        Py.len items <= per_page)
  /\ (forall xs,
        0 <= per_page ->
        upstream log (coins_list_request page per_page) = Ok (JList xs) ->
        Forall (fun x => PyJson.is_dict x = true) xs ->
        exists rows,
          fst (CoinGeckoService.get_coins_list upstream self page per_page log)
          = Ok rows
          /\ Forall2 (fun x row => CoinGeckoService.coin_fields x = Ok row)
                     (take (Z.to_nat per_page) xs) rows
          /\ length rows = Nat.min (Z.to_nat per_page) (length xs))
  /\ (forall raw_page raw_per_page r,
        fst (Main.list_coins upstream self raw_page raw_per_page log) = Ok r ->
        let p := fst (validate_pagination_params raw_page raw_per_page MAX_PER_PAGE) in
        let pp := snd (validate_pagination_params raw_page raw_per_page MAX_PER_PAGE) in
        PaginatedResponse.page r = p
        /\ PaginatedResponse.per_page r = pp
        /\ fst (CoinGeckoService.get_coins_list upstream self p pp log)
           = Ok (PaginatedResponse.items r)
        /\ Py.len (PaginatedResponse.items r) <= pp
        /\ (PaginatedResponse.items r <> [] ->
            PaginatedResponse.total r = p * pp + pp)
        /\ (PaginatedResponse.items r = [] ->
            PaginatedResponse.total r = p * pp))
  /\ (forall raw_page raw_per_page,
        let p := fst (validate_pagination_params raw_page raw_per_page MAX_PER_PAGE) in
        let pp := snd (validate_pagination_params raw_page raw_per_page MAX_PER_PAGE) in
        snd (Main.list_coins upstream self raw_page raw_per_page log)
        = log ++ [coins_list_request p pp]
        /\ forall xs,
             upstream log (coins_list_request p pp) = Ok (JList xs) ->
             Forall (fun x => PyJson.is_dict x = true) xs ->
             exists r,
               fst (Main.list_coins upstream self raw_page raw_per_page log)
               = Ok r
               /\ Forall2 (fun x row => CoinGeckoService.coin_fields x = Ok row)
                          (take (Z.to_nat pp) xs) (PaginatedResponse.items r)
               /\ length (PaginatedResponse.items r)
                  = Nat.min (Z.to_nat pp) (length xs)
               /\ PaginatedResponse.total r
                  = match xs with
                    | [] => p * pp
                    | _ => p * pp + pp
                    end).
Proof.
  conjs.
  - by rewrite get_coins_list_run.
  - intros items Hpp. by apply get_coins_list_bound.
  - intros xs. apply get_coins_list_records.
  - intros raw_page raw_per_page r. unfold Main.list_coins.
    destruct (validate_pagination_params_normalized raw_page raw_per_page)
      as (Hp1 & Hpp1 & _).
    destruct (validate_pagination_params raw_page raw_per_page MAX_PER_PAGE)
      as [p pp]. simpl in Hp1, Hpp1 |- *.
    unfold mbind, Gateway_bind.
    destruct (CoinGeckoService.get_coins_list upstream self p pp log)
      as [[coins|e] log'] eqn:Hrun; [|done].
    simpl. intros [= <-]. simpl. conjs; try done.
    + apply (get_coins_list_bound p pp log); [lia|]. by rewrite Hrun.
    + by destruct coins.
    + by intros ->.
  - intros raw_page raw_per_page. unfold Main.list_coins.
    destruct (validate_pagination_params_normalized raw_page raw_per_page)
      as (Hp1 & Hpp1 & _).
    destruct (validate_pagination_params raw_page raw_per_page MAX_PER_PAGE)
      as [p pp]. cbn [fst snd] in Hp1, Hpp1 |- *.
    unfold mbind, Gateway_bind. split.
    + rewrite get_coins_list_run. by destruct (on_exception _ _ _).
    + intros xs Hup Hdict.
      destruct (get_coins_list_records p pp log xs ltac:(lia) Hup Hdict)
        as (rows & Hrows & Hall & Hlen).
      destruct (CoinGeckoService.get_coins_list upstream self p pp log)
        as [[coins|e] log'] eqn:Hrun; cbn [fst] in Hrows; [|done].
      injection Hrows as ->.
      eexists. split; [reflexivity|]. cbn [PaginatedResponse.items
                                            PaginatedResponse.total].
      conjs; [done|done|].
      destruct xs as [|x xs], rows as [|row rows]; try done;
        simpl in Hlen; lia.
Qed.

(** ** Length of the returned items *)



(** ** Error mapping *)

Lemma fmap_run {A B} (f : A -> B) (m : Gateway A) log :
  (f <$> m) log
  = (match fst (m log) with Ok a => Ok (f a) | Raise e => Raise e end,
     snd (m log)).
Proof.
  unfold fmap, Gateway_fmap, mbind, Gateway_bind.
  by destruct (m log) as [[a|e] log'].
Qed.

Lemma on_exception_provider_failure {A} status_code detail e :
  provider_failure e ->
  on_exception (A := A) status_code detail (Raise (gateway_error e))
  = Raise (gateway_error e).
Proof.
  destruct e as [c d|c m|m|cls m]; try done.
  intros _. simpl. by destruct (c =? 429).
Qed.

(** Every operation calls the provider at least once. *)
Lemma perform_requests Category_init op log :
  exists req more,
    snd (CoinGeckoService.perform upstream self Category_init op log)
    = log ++ req :: more.
Proof.
  destruct op as [page per_page| |coin_id|category_id page per_page];
    unfold CoinGeckoService.perform; rewrite fmap_run; simpl.
  - rewrite get_coins_list_run. by eexists _, [].
  - rewrite get_coin_categories_run. by eexists _, [].
  - rewrite get_coin_by_id_run. by eexists _, [].
  - rewrite get_coins_by_category_run.
    destruct (upstream log _) as [category_data|e]; [|by eexists _, []].
    destruct (negb (PyJson.truthy category_data)); [by eexists _, []|].
    simpl. rewrite <- app_assoc. by eexists _, [_].
Qed.

(** When the last request of an operation is answered by a failure, the
    operation raises what [_make_request] made of it. *)
Lemma perform_failure Category_init op log prefix req e :
  snd (CoinGeckoService.perform upstream self Category_init op log)
  = prefix ++ [req] ->
  upstream prefix req = Raise e ->
  provider_failure e ->
  fst (CoinGeckoService.perform upstream self Category_init op log)
  = Raise (gateway_error e).
Proof.
  intros Hlog Hup He.
  destruct op as [page per_page| |coin_id|category_id page per_page];
    unfold CoinGeckoService.perform in *; rewrite fmap_run in *; simpl in *.
  - rewrite get_coins_list_run in *. simpl in *.
    apply app_inj_tail in Hlog as [<- <-].
    by rewrite Hup, on_exception_provider_failure.
  - rewrite get_coin_categories_run in *. simpl in *.
    apply app_inj_tail in Hlog as [<- <-].
    by rewrite Hup, on_exception_provider_failure.
  - rewrite get_coin_by_id_run in *. simpl in *.
    apply app_inj_tail in Hlog as [<- <-].
    by rewrite Hup, on_exception_provider_failure.
  - rewrite get_coins_by_category_run in *.
    destruct (upstream log _) as [category_data|e1] eqn:H1.
    + destruct (negb (PyJson.truthy category_data)); simpl in *.
      * apply app_inj_tail in Hlog as [<- <-]. congruence.
      * apply app_inj_tail in Hlog as [<- <-].
        by rewrite Hup, on_exception_provider_failure.
    + cbn [fst snd] in *. apply app_inj_tail in Hlog as [<- <-].
      assert (e1 = e) as -> by congruence.
      by rewrite on_exception_provider_failure.
Qed.

(** C5 (as stated) fails on the letter of the message: the detail of the
    rate-limit error starts with a capital, and ["rate limit"] is not a
    substring of it. *)
Lemma rate_limit_detail_is_capitalised :
  exists detail,
    fst (run (CoinGeckoService.perform
                (always (Raise (HTTPError 429 "429 Client Error")))
                test_service Category_init_strict
                (CoinGeckoService.GetCoin "bitcoin")))
    = Raise (HTTPException 429 detail)
    /\ contains "rate limit" detail = false.
Proof. eexists. split; reflexivity. Qed.

(** C5, amended. Every operation calls the provider at least once, and
    whenever the provider answers the last request of an operation
    - with HTTP 429, the operation raises an error of status 429 whose
      message is "Rate limit exceeded. Please try again later." (it
      contains "Rate limit", and "rate limit" once letter case is ignored);
    - with any other HTTP error, the operation raises an error with the
      same status code and the provider's message;
    - with a transport failure, the operation raises an error of status
      503. *)
Theorem gateway_error_mapping Category_init op log prefix req :
  snd (CoinGeckoService.perform upstream self Category_init op log)
  = prefix ++ [req] ->
  (exists req0 more,
     snd (CoinGeckoService.perform upstream self Category_init op log)
     = log ++ req0 :: more)
  /\ (forall msg,
        upstream prefix req = Raise (HTTPError 429 msg) ->
        exists detail,
          fst (CoinGeckoService.perform upstream self Category_init op log)
          = Raise (HTTPException 429 detail)
          /\ detail = "Rate limit exceeded. Please try again later."
          /\ contains "Rate limit" detail = true
          /\ contains "rate limit" (lower detail) = true)
  /\ (forall status_code msg,
        status_code <> 429 ->
        upstream prefix req = Raise (HTTPError status_code msg) ->
        fst (CoinGeckoService.perform upstream self Category_init op log)
        = Raise (HTTPException status_code msg))
  /\ (forall msg,
        upstream prefix req = Raise (RequestException msg) ->
        fst (CoinGeckoService.perform upstream self Category_init op log)
        = Raise (HTTPException 503
                   ("Error fetching data from CoinGecko: " +:+ msg))).
Proof.
  intros Hlog. conjs.
  - apply perform_requests.
  - intros msg Hup. eexists. split; [|by conjs].
    by rewrite (perform_failure _ _ _ _ _ _ Hlog Hup).
  - intros status_code msg Hne Hup.
    rewrite (perform_failure _ _ _ _ _ _ Hlog Hup) by done.
    simpl. by destruct (Z.eqb_spec status_code 429).
  - intros msg Hup.
    by rewrite (perform_failure _ _ _ _ _ _ Hlog Hup).
Qed.

(** ** Failures of the coin lookup *)

Lemma raises_plain_bind {A B} (m : result A) (f : A -> result B) :
  raises_plain m -> (forall a, raises_plain (f a)) -> raises_plain (m ≫= f).
Proof.
  intros Hm Hf e. destruct m as [a|e']; simpl.
  - apply Hf.
  - intros [= <-]. by apply Hm.
Qed.

Lemma raises_plain_get obj k default : raises_plain (PyJson.get obj k default).
Proof. intros e. destruct obj; simpl; intros [= <-]; eauto. Qed.

Lemma raises_plain_get_opt obj k : raises_plain (PyJson.get_opt obj k).
Proof.
  destruct k as [k|]; [apply raises_plain_get|].
  intros e. destruct obj; simpl; intros [= <-]; eauto.
Qed.

Lemma raises_plain_Ok {A} (a : A) : raises_plain (Ok a).
Proof. by intros e. Qed.

Ltac raises_plain :=
  lazymatch goal with
  | |- raises_plain (_ ≫= _) =>
      apply raises_plain_bind; [raises_plain | intros ?; raises_plain]
  | |- raises_plain (PyJson.get _ _ _) => apply raises_plain_get
  | |- raises_plain (PyJson.get_opt _ _) => apply raises_plain_get_opt
  | |- raises_plain _ => apply raises_plain_Ok
  end.

Lemma coin_detail_raises_plain data :
  raises_plain (CoinGeckoService.coin_detail self data).
Proof.
  unfold CoinGeckoService.coin_detail. raises_plain.
Qed.

(** C6 (as stated) fails for the failures of the call itself: an
    [HTTPException] raised by [_make_request] goes through
    [get_coin_by_id] unchanged, so an upstream status 500 is reported as
    500 and a transport failure as 503, not as 404. *)
Lemma get_coin_by_id_keeps_upstream_status :
  status_of (fst (run (CoinGeckoService.get_coin_by_id
                         (always (Raise (HTTPError 500 "500 Server Error")))
                         test_service "bitcoin")))
  = Some 500
  /\ status_of (fst (run (CoinGeckoService.get_coin_by_id
                            (always (Raise (RequestException "Network error")))
                            test_service "bitcoin")))
     = Some 503
  /\ status_of (fst (run (CoinGeckoService.get_coin_by_id
                            (always (Raise (HTTPError 500 "500 Server Error")))
                            test_service "bitcoin")))
     <> Some 404.
Proof. conjs; [reflexivity|reflexivity|discriminate]. Qed.

(** C6, amended. For every coin id: when the provider answers with a
    payload, every failure of [get_coin_by_id] (a reshaping failure, as on
    a payload that is not a record) is the single error 404
    "Coin not found: <coin id>", and so is an unexpected exception of the
    call; an upstream HTTP error keeps its own status code and a transport
    failure is reported as 503.  The endpoint passes all of them on. *)
Theorem get_coin_by_id_failures coin_id log :
  (forall data e,
     upstream log (coin_request coin_id) = Ok data ->
     fst (CoinGeckoService.get_coin_by_id upstream self coin_id log) = Raise e ->
     e = HTTPException 404 ("Coin not found: " +:+ coin_id))
  /\ (forall data,
        upstream log (coin_request coin_id) = Ok data ->
        PyJson.is_dict data = false ->
        fst (CoinGeckoService.get_coin_by_id upstream self coin_id log)
        = Raise (HTTPException 404 ("Coin not found: " +:+ coin_id)))
  /\ (forall cls msg,
        upstream log (coin_request coin_id) = Raise (OtherException cls msg) ->
        fst (CoinGeckoService.get_coin_by_id upstream self coin_id log)
        = Raise (HTTPException 404 ("Coin not found: " +:+ coin_id)))
  /\ (forall status_code msg,
        upstream log (coin_request coin_id)
        = Raise (HTTPError status_code msg) ->
        status_of (fst (CoinGeckoService.get_coin_by_id upstream self coin_id log))
        = Some status_code)
  /\ (forall msg,
        upstream log (coin_request coin_id) = Raise (RequestException msg) ->
        status_of (fst (CoinGeckoService.get_coin_by_id upstream self coin_id log))
        = Some 503)
  /\ Main.get_coin upstream self coin_id log
     = CoinGeckoService.get_coin_by_id upstream self coin_id log.
Proof.
  rewrite get_coin_by_id_run. cbn [fst]. conjs.
  - intros data e ->.
    destruct (CoinGeckoService.coin_detail self data) as [d|e'] eqn:Hd; [done|].
    destruct (coin_detail_raises_plain data e' Hd) as (cls & msg & ->).
    by intros [= <-].
  - intros data -> Hnd. by destruct data.
  - by intros cls msg ->.
  - intros status_code msg ->. simpl.
    destruct (Z.eqb_spec status_code 429) as [->|Hne]; done.
  - by intros msg ->.
  - unfold Main.get_coin, try_except. rewrite get_coin_by_id_run.
    by destruct (on_exception _ _ _).
Qed.

(** ** An absent category *)

(** C7. For every category id, page and per_page: when the provider
    answers the category-metadata request with a payload Python takes for
    false (in particular [None], an empty record or an empty list),
    [get_coins_by_category] returns [{category: <category id>, coins: []}]
    without raising, and the only request it has made is the
    category-metadata request: the coin-market request is not issued.  The
    endpoint returns the same for every raw page and per_page. *)
Theorem get_coins_by_category_absent category_id page per_page log category_data :
  upstream log (category_request category_id) = Ok category_data ->
  PyJson.truthy category_data = false ->
  CoinGeckoService.get_coins_by_category upstream self category_id page per_page log
  = (Ok (CategoryCoins.Build (JStr category_id) []),
     log ++ [category_request category_id])
  /\ Main.get_coins_by_category upstream self category_id page per_page log
     = (Ok (CategoryCoins.Build (JStr category_id) []),
        log ++ [category_request category_id])
  /\ url (category_request category_id) <> url (category_coins_request category_id page per_page)
  /\ PyJson.truthy JNull = false
  /\ PyJson.truthy (JDict []) = false
  /\ PyJson.truthy (JList []) = false.
Proof.
  intros Hup Hfalse.
  assert (Hrun : forall p pp,
             CoinGeckoService.get_coins_by_category upstream self category_id p pp log
             = (Ok (CategoryCoins.Build (JStr category_id) []),
                log ++ [category_request category_id])).
  { intros p pp. by rewrite get_coins_by_category_run, Hup, Hfalse. }
  conjs; try done.
  - unfold Main.get_coins_by_category.
    destruct (validate_pagination_params page per_page MAX_PER_PAGE) as [p pp].
    unfold try_except. by rewrite Hrun.
  - simpl. intros Heq. apply String.app_inj in Heq. discriminate.
Qed.

(** ** Malformed category lists *)

Lemma collect_categories_filter Category_init data categories :
  CoinGeckoService.collect_categories Category_init data categories
  = CoinGeckoService.collect_categories Category_init
      (List.filter PyJson.is_dict data) categories.
Proof.
  revert categories. induction data as [|x data IH]; intros categories; [done|].
  simpl. destruct (PyJson.is_dict x) eqn:Hx; simpl; rewrite ?Hx; [|done].
  destruct (CoinGeckoService.from_coingecko Category_init x); simpl; [|done].
  apply IH.
Qed.

Lemma collect_categories_Ok Category_init data categories cs :
  Forall2 (fun x c => CoinGeckoService.from_coingecko Category_init x = Ok c)
          (List.filter PyJson.is_dict data) cs ->
  CoinGeckoService.collect_categories Category_init data categories
  = Ok (categories ++ cs).
Proof.
  rewrite collect_categories_filter.
  assert (Hd : Forall (fun x => PyJson.is_dict x = true)
                      (List.filter PyJson.is_dict data)).
  { apply List.Forall_forall. intros x Hx. by apply List.filter_In in Hx as [_ ?]. }
  revert Hd. generalize (List.filter PyJson.is_dict data). clear data.
  intros data Hd H. revert categories.
  induction H as [|x c data cs Hx _ IH]; intros categories.
  - by rewrite app_nil_r.
  - inversion Hd as [|? ? Hdx Hd']; subst.
    simpl. rewrite Hdx, Hx. simpl. rewrite IH by done.
    by rewrite <- app_assoc.
Qed.

Lemma collect_categories_rejected Category_init data categories :
  Exists (fun x => PyJson.is_dict x = true
                   /\ exists e, CoinGeckoService.from_coingecko Category_init x
                                = Raise e)
         data ->
  exists x e,
    x ∈ data
    /\ PyJson.is_dict x = true
    /\ CoinGeckoService.from_coingecko Category_init x = Raise e
    /\ CoinGeckoService.collect_categories Category_init data categories
       = Raise e.
Proof.
  revert categories. induction data as [|x data IH]; intros categories H;
    [by inversion H|].
  simpl. destruct (PyJson.is_dict x) eqn:Hx.
  - destruct (CoinGeckoService.from_coingecko Category_init x) as [c|e] eqn:Hc.
    + apply Exists_inv in H as [(_ & e & He)|H]; [congruence|].
      destruct (IH (categories ++ [c]) H) as (y & e & Hy & Hdy & Hey & Hrun).
      exists y, e. conjs; try done. apply elem_of_cons; by right.
    + exists x, e. conjs; try done. apply elem_of_cons; by left.
  - apply Exists_inv in H as [(Hd & _)|H]; [congruence|].
    destruct (IH categories H) as (y & e & Hy & Hdy & Hey & Hrun).
    exists y, e. conjs; try done. apply elem_of_cons; by right.
Qed.

(** C8 (as stated) fails for an entry that is a record but not a
    well-formed one: a record whose [name] is null is not skipped; the
    [Category] constructor rejects it and the whole listing fails with
    status 500, the well-formed record after it included. *)
Lemma get_coin_categories_ill_typed_record :
  status_of (fst (run (CoinGeckoService.get_coin_categories
                         (always (Ok (JList
                            [JDict [("name", JNull)];
                             JDict [("category_id", JStr "defi");
                                    ("name", JStr "DeFi")]])))
                         test_service Category_init_strict)))
  = Some 500
  /\ forall cs,
       fst (run (CoinGeckoService.get_coin_categories
                   (always (Ok (JList
                      [JDict [("name", JNull)];
                       JDict [("category_id", JStr "defi");
                              ("name", JStr "DeFi")]])))
                   test_service Category_init_strict))
       <> Ok cs.
Proof. split; [reflexivity|discriminate]. Qed.

(** C8, amended. For every payload answered to the category-list
    request: when it is not a list, [get_coin_categories] returns the empty
    list and raises nothing; when it is a list, the entries that are not
    records (not a JSON object) are skipped and never make the operation
    fail: the result, whether a value or an error, is the one the list of
    its records alone gives, and it is the categories of the records, in
    order, when each record is accepted.  A record that the [Category]
    constructor rejects is not skipped: the operation then returns no
    list at all but raises an [HTTPException], of status 500 when the
    constructor raises ordinary exceptions. *)
Theorem get_coin_categories_malformed Category_init log :
  (forall payload,
     upstream log categories_request = Ok payload ->
     PyJson.is_list payload = false ->
     CoinGeckoService.get_coin_categories upstream self Category_init log
     = (Ok [], log ++ [categories_request]))
  /\ (forall xs cs,
        upstream log categories_request = Ok (JList xs) ->
        Forall2 (fun x c => CoinGeckoService.from_coingecko Category_init x = Ok c)
                (List.filter PyJson.is_dict xs) cs ->
        fst (CoinGeckoService.get_coin_categories upstream self Category_init log)
        = Ok cs)
  /\ (forall xs (upstream' : Upstream) log',
        upstream log categories_request = Ok (JList xs) ->
        upstream' log' categories_request
        = Ok (JList (List.filter PyJson.is_dict xs)) ->
        fst (CoinGeckoService.get_coin_categories upstream self Category_init log)
        = fst (CoinGeckoService.get_coin_categories upstream' self
                 Category_init log'))
  /\ (forall xs,
        upstream log categories_request = Ok (JList xs) ->
        Exists (fun x => PyJson.is_dict x = true
                         /\ exists e,
                              CoinGeckoService.from_coingecko Category_init x
                              = Raise e)
               xs ->
        (exists e,
           fst (CoinGeckoService.get_coin_categories upstream self
                  Category_init log) = Raise e
           /\ is_http_exception e)
        /\ ((forall x, raises_plain
                         (CoinGeckoService.from_coingecko Category_init x)) ->
            status_of (fst (CoinGeckoService.get_coin_categories upstream self
                              Category_init log))
            = Some 500)).
Proof.
  conjs.
  - intros payload Hup Hnl. rewrite get_coin_categories_run, Hup.
    by destruct payload.
  - intros xs cs Hup Hcs. rewrite get_coin_categories_run, Hup. cbn [fst].
    by rewrite (collect_categories_Ok _ _ _ cs).
  - intros xs upstream' log' Hup Hup'.
    rewrite get_coin_categories_run, Hup. cbn [fst].
    rewrite collect_categories_filter.
    unfold CoinGeckoService.get_coin_categories, try_except at 1.
    unfold mbind at 1, Gateway_bind at 1. rewrite make_request_run, Hup'.
    unfold lift.
    by destruct (CoinGeckoService.collect_categories _ _ _) as [cs|[]].
  - intros xs Hup Hrej. rewrite get_coin_categories_run, Hup. cbn [fst].
    destruct (collect_categories_rejected Category_init xs [] Hrej)
      as (x & e & _ & _ & He & ->).
    split.
    + destruct e; by eexists.
    + intros Hplain. destruct (Hplain x e He) as (cls & msg & ->). done.
Qed.

(** ** Reshaping of the coin detail *)

(** C9. For every payload that is a record holding
    [market_data.current_price.<currency>] and
    [market_data.market_cap.<currency>] for the configured default
    currency: whenever [get_coin_by_id] returns, the [current_price] and
    [market_cap] of the result are those nested values, and each of the
    keys [homepage], [blockchain_site], [official_forum_url] of its [links]
    is the value found under [links] in the payload, or the empty sequence
    when the payload has no [links] or its [links] has no such key; and it
    does return when [links] is absent or is a record. *)
Theorem get_coin_by_id_flattens coin_id log kvs md cp mc cur price cap :
  CoinGeckoService.default_currency self = Some cur ->
  upstream log (coin_request coin_id) = Ok (JDict kvs) ->
  PyJson.lookup "market_data" kvs = Some (JDict md) ->
  PyJson.lookup "current_price" md = Some (JDict cp) ->
  PyJson.lookup cur cp = Some price ->
  PyJson.lookup "market_cap" md = Some (JDict mc) ->
  PyJson.lookup cur mc = Some cap ->
  let links_of key :=
    match PyJson.lookup "links" kvs with
    | Some (JDict links) =>
        match PyJson.lookup key links with Some v => v | None => JList [] end
    | _ => JList []
    end in
  (forall r,
     fst (CoinGeckoService.get_coin_by_id upstream self coin_id log) = Ok r ->
     exists detail links,
       r = JDict detail
       /\ PyJson.lookup "current_price" detail = Some price
       /\ PyJson.lookup "market_cap" detail = Some cap
       /\ PyJson.lookup "links" detail = Some (JDict links)
       /\ PyJson.lookup "homepage" links = Some (links_of "homepage")
       /\ PyJson.lookup "blockchain_site" links = Some (links_of "blockchain_site")
       /\ PyJson.lookup "official_forum_url" links
          = Some (links_of "official_forum_url"))
  /\ (PyJson.lookup "links" kvs = None
      \/ (exists links, PyJson.lookup "links" kvs = Some (JDict links)) ->
      exists r,
        fst (CoinGeckoService.get_coin_by_id upstream self coin_id log) = Ok r)
  /\ (forall key,
        PyJson.lookup "links" kvs = None
        \/ (exists links, PyJson.lookup "links" kvs = Some (JDict links)
                          /\ PyJson.lookup key links = None) ->
        links_of key = JList []).
Proof.
  intros Hcur Hup Hmd Hcp Hprice Hmc Hcap links_of.
  rewrite get_coin_by_id_run, Hup. cbn [fst].
  unfold CoinGeckoService.coin_detail. rewrite Hcur. simpl.
  rewrite Hmd. simpl. rewrite Hcp, Hmc. simpl. rewrite Hprice, Hcap.
  subst links_of. conjs.
  - intros r.
    destruct (PyJson.lookup "links" kvs) as [[]|]; simpl; try done;
      intros [= <-]; eexists _, _; conjs; reflexivity.
  - intros [->|[links ->]]; simpl; by eexists.
  - intros key [->|(links & -> & ->)]; done.
Qed.

End Operations.

(** ** The theorems at concrete inputs *)

Lemma get_coins_list_truncates_witness :
  0 <= 10
  /\ exists rows,
       fst (run (CoinGeckoService.get_coins_list
                   (always (Ok (JList (raw_coins 11)))) test_service 1 10))
       = Ok rows
       /\ length rows = 10%nat.
Proof.
  assert (H0 : 0 <= 10) by lia.
  split; [exact H0|].
  destruct (get_coins_list_truncates
              (always (Ok (JList (raw_coins 11)))) test_service 1 10 [])
    as (_ & _ & Hrows & _).
  destruct (Hrows (raw_coins 11) H0 eq_refl) as (rows & Hr & _ & Hlen).
  { vm_compute. repeat constructor. }
  exists rows. split; [exact Hr | exact Hlen].
Defined.


Lemma gateway_error_mapping_witness :
  exists detail,
    fst (CoinGeckoService.perform
           (always (Raise (HTTPError 429 "429 Client Error")))
           test_service Category_init_strict
           (CoinGeckoService.ListCoins 1 10) [])
    = Raise (HTTPException 429 detail)
    /\ detail = "Rate limit exceeded. Please try again later."
    /\ contains "Rate limit" detail = true
    /\ contains "rate limit" (lower detail) = true.
Proof.
  destruct (gateway_error_mapping
              (always (Raise (HTTPError 429 "429 Client Error")))
              test_service Category_init_strict
              (CoinGeckoService.ListCoins 1 10) [] []
              (CoinGeckoService.request_for test_service "coins/markets"
                 (Some [("vs_currency", JStr "cad");
                        ("order", JStr "market_cap_desc");
                        ("per_page", JInt 11);
                        ("page", JInt 1);
                        ("sparkline", JBool false)]))
              eq_refl)
    as (_ & H429 & _).
  exact (H429 "429 Client Error" eq_refl).
Defined.

Lemma get_coin_by_id_failures_witness :
  fst (CoinGeckoService.get_coin_by_id (always (Ok (JList []))) test_service
         "bitcoin" [])
  = Raise (HTTPException 404 "Coin not found: bitcoin").
Proof.
  destruct (get_coin_by_id_failures (always (Ok (JList []))) test_service
              "bitcoin" [])
    as (_ & Hshape & _).
  exact (Hshape (JList []) eq_refl eq_refl).
Defined.

Lemma get_coins_by_category_absent_witness :
  CoinGeckoService.get_coins_by_category (always (Ok JNull)) test_service
    "defi" 1 10 []
  = (Ok (CategoryCoins.Build (JStr "defi") []),
     [CoinGeckoService.request_for test_service "coins/categories/defi" None]).
Proof.
  destruct (get_coins_by_category_absent (always (Ok JNull)) test_service
              "defi" 1 10 [] JNull eq_refl eq_refl)
    as (Hrun & _).
  exact Hrun.
Defined.

Lemma get_coin_categories_malformed_witness :
  CoinGeckoService.get_coin_categories (always (Ok (JStr "not a list")))
    test_service Category_init_strict []
  = (Ok [], [CoinGeckoService.request_for test_service "coins/categories/list" None])
  /\ fst (CoinGeckoService.get_coin_categories
            (always (Ok (JList [JInt 5;
                                JDict [("category_id", JStr "defi");
                                       ("name", JStr "DeFi")];
                                JNull;
                                JStr "nft"])))
            test_service Category_init_strict [])
     = Ok [Category.Build "defi" "DeFi"].
Proof.
  split.
  - destruct (get_coin_categories_malformed (always (Ok (JStr "not a list")))
                test_service Category_init_strict [])
      as (Hnl & _).
    exact (Hnl (JStr "not a list") eq_refl eq_refl).
  - destruct (get_coin_categories_malformed
                (always (Ok (JList [JInt 5;
                                    JDict [("category_id", JStr "defi");
                                           ("name", JStr "DeFi")];
                                    JNull;
                                    JStr "nft"])))
                test_service Category_init_strict [])
      as (_ & Hrec & _).
    apply (Hrec _ _ eq_refl). repeat constructor.
Defined.

Lemma get_coin_by_id_flattens_witness :
  let payload :=
    [("id", JStr "bitcoin"); ("symbol", JStr "btc"); ("name", JStr "Bitcoin");
     ("market_data",
      JDict [("current_price", JDict [("cad", JFloat 50000%float)]);
             ("market_cap", JDict [("cad", JFloat 1000000000%float)]);
             ("price_change_24h", JFloat 1000%float);
             ("price_change_percentage_24h", JFloat 2.5%float)])] in
  exists detail links,
    fst (CoinGeckoService.get_coin_by_id (always (Ok (JDict payload)))
           test_service "bitcoin" [])
    = Ok (JDict detail)
    /\ PyJson.lookup "current_price" detail = Some (JFloat 50000%float)
    /\ PyJson.lookup "market_cap" detail = Some (JFloat 1000000000%float)
    /\ PyJson.lookup "links" detail = Some (JDict links)
    /\ PyJson.lookup "homepage" links = Some (JList []).
Proof.
  intros payload.
  destruct (get_coin_by_id_flattens (always (Ok (JDict payload))) test_service
              "bitcoin" [] payload
              [("current_price", JDict [("cad", JFloat 50000%float)]);
               ("market_cap", JDict [("cad", JFloat 1000000000%float)]);
               ("price_change_24h", JFloat 1000%float);
               ("price_change_percentage_24h", JFloat 2.5%float)]
              [("cad", JFloat 50000%float)]
              [("cad", JFloat 1000000000%float)]
              "cad" (JFloat 50000%float) (JFloat 1000000000%float)
              eq_refl eq_refl eq_refl eq_refl eq_refl eq_refl eq_refl)
    as (Hshape & Hret & _).
  destruct (Hret (or_introl eq_refl)) as [r Hr].
  destruct (Hshape r Hr) as (detail & links & -> & Hp & Hc & Hl & Hh & _).
  exists detail, links. repeat split; assumption.
Defined.


(** * Further properties of the code *)

(** ** The normalizer beyond its default maximum *)

(** X1. Normalizing is idempotent, for every maximum: normalizing the
    normalized pair again changes nothing. *)
Theorem validate_pagination_params_idempotent (page per_page max_per_page : Z) :
  let r := validate_pagination_params page per_page max_per_page in
  validate_pagination_params (fst r) (snd r) max_per_page = r.
Proof.
  unfold validate_pagination_params. simpl.
  destruct (Z.ltb_spec per_page 1);
    match goal with |- context [?a <? 1] => destruct (Z.ltb_spec a 1) end;
    f_equal; lia.
Qed.

(** X2. With a maximum of at least 1, the pairs the normalizer leaves
    unchanged are exactly those with [page >= 1] and
    [1 <= per_page <= max_per_page]: input the query validation already
    admits passes through untouched, and nothing else does. *)
Theorem validate_pagination_params_fixed (page per_page max_per_page : Z) :
  1 <= max_per_page ->
  validate_pagination_params page per_page max_per_page = (page, per_page)
  <-> 1 <= page /\ 1 <= per_page <= max_per_page.
Proof.
  intros Hm. unfold validate_pagination_params.
  destruct (Z.ltb_spec per_page 1); split.
  - intros [= Hp Hpp]. lia.
  - intros (? & ? & ?). lia.
  - intros [= Hp Hpp]. lia.
  - intros (? & ? & ?). f_equal; lia.
Qed.

Lemma validate_pagination_params_fixed_witness :
  1 <= 100
  /\ (validate_pagination_params 7 25 100 = (7, 25)
      <-> 1 <= 7 /\ 1 <= 25 <= 100).
Proof.
  assert (H : 1 <= 100) by lia.
  split; [exact H|].
  exact (validate_pagination_params_fixed 7 25 100 H).
Defined.

(** X3. The normalized [per_page] never exceeds the maximum, and it is at
    least 1 exactly when the maximum is: with a maximum below 1 the result
    is the maximum itself, outside the documented range. *)
Theorem validate_pagination_params_range (page per_page max_per_page : Z) :
  snd (validate_pagination_params page per_page max_per_page) <= max_per_page
  /\ (1 <= snd (validate_pagination_params page per_page max_per_page)
      <-> 1 <= max_per_page)
  /\ (max_per_page < 1 ->
      snd (validate_pagination_params page per_page max_per_page) = max_per_page).
Proof.
  unfold validate_pagination_params. simpl.
  destruct (Z.ltb_spec per_page 1); conjs; try split; lia.
Qed.

Lemma validate_pagination_params_range_witness :
  snd (validate_pagination_params 1 50 0) = 0.
Proof.
  destruct (validate_pagination_params_range 1 50 0) as (_ & _ & H).
  apply H. lia.
Defined.

(** ** The slicing helper on arbitrary parameters *)

Section PaginateAny.

Context {A : Type}.
Implicit Types (xs : list A) (page per_page start stop : Z).

Lemma length_slice_bound xs start stop :
  start <= stop ->
  Py.len (Py.slice xs start stop) <= stop - start.
Proof.
  intros Hle. unfold Py.len, Py.slice, Py.slice_index.
  rewrite length_take, length_drop.
  destruct (Z.ltb_spec start 0), (Z.ltb_spec stop 0); lia.
Qed.

Lemma slice_segment xs start stop :
  exists before after, xs = before ++ Py.slice xs start stop ++ after.
Proof.
  unfold Py.slice.
  set (lo := Py.slice_index (length xs) start).
  set (n := (Py.slice_index (length xs) stop - lo)%nat).
  exists (take lo xs), (drop n (drop lo xs)).
  by rewrite take_drop, take_drop.
Qed.

(** X4. For every page number, also zero or negative, and every page
    size of at least 0, the helper returns at most [per_page] items, and
    none at all for a page size of 0. *)
Theorem paginate_response_length_any xs page per_page :
  0 <= per_page ->
  Py.len (PaginatedResponse.items (paginate_response xs page per_page))
  <= per_page
  /\ (per_page = 0 ->
      PaginatedResponse.items (paginate_response xs page per_page) = []).
Proof.
  intros Hpp.
  assert (Hlen : Py.len (PaginatedResponse.items
                           (paginate_response xs page per_page))
                 <= per_page).
  { unfold paginate_response. simpl.
    destruct ((page - 1) * per_page <? Py.len xs).
    - etrans; [apply length_slice_bound|]; lia.
    - unfold Py.len. simpl. lia. }
  split; [exact Hlen|].
  intros ->. apply length_zero_iff_nil. unfold Py.len in Hlen. lia.
Qed.

(** X5. With a negative page size, page 1 is the sequence without its
    last [-per_page] items: the window [0 : per_page] counts its end from
    the back.  So a negative page size does not always give an empty page:
    page 1 is non-empty exactly when the sequence has more than
    [-per_page] items. *)
Theorem paginate_response_negative_per_page xs per_page :
  per_page < 0 ->
  PaginatedResponse.items (paginate_response xs 1 per_page)
  = take (Z.to_nat (Py.len xs + per_page)) xs
  /\ Py.len (PaginatedResponse.items (paginate_response xs 1 per_page))
     = Z.max (Py.len xs + per_page) 0
  /\ (PaginatedResponse.items (paginate_response xs 1 per_page) <> []
      <-> - per_page < Py.len xs).
Proof.
  intros Hpp.
  assert (Hitems : PaginatedResponse.items (paginate_response xs 1 per_page)
                   = take (Z.to_nat (Py.len xs + per_page)) xs).
  { unfold paginate_response. simpl.
    replace ((1 - 1) * per_page) with 0 by lia.
    destruct (Z.ltb_spec 0 (Py.len xs)) as [Hlt|Hge].
    - change (Py.slice xs 0 (0 + per_page)) with (Py.slice_to xs per_page).
      by rewrite slice_to_negative.
    - unfold Py.len in *. destruct xs; [by rewrite take_nil|simpl in Hge; lia]. }
  assert (Hlen : Py.len (PaginatedResponse.items (paginate_response xs 1 per_page))
                 = Z.max (Py.len xs + per_page) 0).
  { rewrite Hitems. unfold Py.len. rewrite length_take. lia. }
  conjs; [done|done|].
  rewrite <- length_zero_iff_nil. unfold Py.len in Hlen. unfold Py.len. lia.
Qed.

(** X6. Whatever the page and the page size, the items returned are a
    contiguous run of the input: the helper never reorders, repeats or
    invents an element. *)
Theorem paginate_response_segment xs page per_page :
  exists before after,
    xs = before
         ++ PaginatedResponse.items (paginate_response xs page per_page)
         ++ after.
Proof.
  unfold paginate_response. simpl.
  destruct ((page - 1) * per_page <? Py.len xs).
  - apply slice_segment.
  - exists xs, []. by rewrite !app_nil_r.
Qed.

(** X7. Page 0 is always empty, for every sequence and every page size:
    its window ends at index 0. *)
Theorem paginate_response_page_zero xs per_page :
  PaginatedResponse.items (paginate_response xs 0 per_page) = [].
Proof.
  unfold paginate_response. cbn [PaginatedResponse.items].
  replace ((0 - 1) * per_page + per_page) with 0 by lia.
  destruct (_ <? _); [|done].
  unfold Py.slice.
  replace (Py.slice_index (length xs) 0) with 0%nat
    by (unfold Py.slice_index; simpl; lia).
  done.
Qed.

(** X8. For a page number and a page size of at least 1, a page is
    non-empty exactly when its number is at most
    [ceil(len / per_page)]: that is the number of non-empty pages. *)
Theorem paginate_response_page_count xs page per_page :
  1 <= page -> 1 <= per_page ->
  PaginatedResponse.items (paginate_response xs page per_page) <> []
  <-> page <= (Py.len xs + per_page - 1) / per_page.
Proof.
  intros Hp Hpp.
  assert (Hdiv : page <= (Py.len xs + per_page - 1) / per_page
                 <-> (page - 1) * per_page < Py.len xs).
  { pose proof (Z.div_mod (Py.len xs + per_page - 1) per_page ltac:(lia)) as Hdm.
    pose proof (Z.mod_pos_bound (Py.len xs + per_page - 1) per_page ltac:(lia)).
    split; nia. }
  rewrite Hdiv. split.
  - intros Hne. destruct (Z.lt_ge_cases ((page - 1) * per_page) (Py.len xs));
      [done|]. exfalso. apply Hne. apply paginate_beyond. lia.
  - intros Hlt. by apply paginate_nonempty.
Qed.

(** X9. After normalization a raw page number of 1 or less (zero and
    negative ones included) always shows the head of the sequence: the
    first [per_page] items, for the normalized [per_page]. *)
Theorem paginate_response_first_page xs page per_page :
  page <= 1 ->
  let p := fst (validate_pagination_params page per_page MAX_PER_PAGE) in
  let pp := snd (validate_pagination_params page per_page MAX_PER_PAGE) in
  PaginatedResponse.items (paginate_response xs p pp) = take (Z.to_nat pp) xs.
Proof.
  intros Hp p pp.
  destruct (validate_pagination_params_normalized page per_page)
    as (Hp1 & Hpp1 & _).
  fold p pp in Hp1, Hpp1.
  assert (p = 1) as ->.
  { subst p. unfold validate_pagination_params. simpl. lia. }
  rewrite paginate_items by lia.
  replace (Z.to_nat ((1 - 1) * pp)) with 0%nat by lia.
  by rewrite drop_0.
Qed.

End PaginateAny.

Lemma paginate_response_page_count_witness :
  PaginatedResponse.items (paginate_response (seq 0 25) 3 10) <> []
  <-> 3 <= (Py.len (seq 0 25) + 10 - 1) / 10.
Proof.
  apply (paginate_response_page_count (seq 0 25) 3 10); lia.
Defined.

Lemma paginate_response_first_page_witness :
  PaginatedResponse.items
    (paginate_response (seq 0 25)
       (fst (validate_pagination_params (-4) 0 MAX_PER_PAGE))
       (snd (validate_pagination_params (-4) 0 MAX_PER_PAGE)))
  = take 10 (seq 0 25).
Proof.
  apply (paginate_response_first_page (seq 0 25) (-4) 0). lia.
Defined.

Lemma paginate_response_length_any_witness :
  Py.len (PaginatedResponse.items (paginate_response (seq 0 25) (-2) 10)) <= 10.
Proof.
  destruct (paginate_response_length_any (seq 0 25) (-2) 10) as (H & _); [lia|].
  exact H.
Defined.

Lemma paginate_response_negative_per_page_witness :
  PaginatedResponse.items (paginate_response (seq 0 25) 1 (-5)) = seq 0 20
  /\ PaginatedResponse.items (paginate_response (seq 0 3) 1 (-5)) = [].
Proof.
  split.
  - apply (paginate_response_negative_per_page (seq 0 25) (-5)). lia.
  - apply (paginate_response_negative_per_page (seq 0 3) (-5)). lia.
Defined.

(** ** What the operations send and raise *)

Section OperationsSendRaise.

Variable upstream : Upstream.
Variable self : CoinGeckoService.t.

Abbreviation request_for := (CoinGeckoService.request_for self).
Abbreviation currency := (PyJson.of_opt (CoinGeckoService.default_currency self)).
Abbreviation perform := (CoinGeckoService.perform upstream self).

Abbreviation coins_list_request page per_page :=
  (request_for "coins/markets"
     (Some [("vs_currency", currency);
            ("order", JStr "market_cap_desc");
            ("per_page", JInt (per_page + 1));
            ("page", JInt page);
            ("sparkline", JBool false)])).

Abbreviation categories_request := (request_for "coins/categories/list" None).

Abbreviation coin_request coin_id :=
  (request_for ("coins/" +:+ coin_id)
     (Some [("vs_currency", currency);
            ("localization", JBool false);
            ("tickers", JBool false);
            ("market_data", JBool true);
            ("community_data", JBool false);
            ("developer_data", JBool false);
            ("sparkline", JBool false)])).

Abbreviation category_request category_id :=
  (request_for ("coins/categories/" +:+ category_id) None).

Abbreviation category_coins_request category_id page per_page :=
  (request_for "coins/markets"
     (Some [("vs_currency", currency);
            ("category", JStr category_id);
            ("order", JStr "market_cap_desc");
            ("per_page", JInt per_page);
            ("page", JInt page);
            ("sparkline", JBool false)])).

Lemma on_exception_http {A} status_code detail (r : result A) e :
  on_exception status_code detail r = Raise e -> is_http_exception e.
Proof. destruct r as [a|[]]; simpl; intros [= <-]; done. Qed.

Lemma fmap_raise {A B} (f : A -> B) (m : Gateway A) log e :
  fst ((f <$> m) log) = Raise e -> fst (m log) = Raise e.
Proof.
  rewrite fmap_run. cbn [fst].
  destruct (fst (m log)) as [a|e']; [discriminate|by intros [= <-]].
Qed.

Lemma get_coins_by_category_http category_id page per_page log e :
  fst (CoinGeckoService.get_coins_by_category upstream self
         category_id page per_page log) = Raise e ->
  is_http_exception e.
Proof.
  rewrite get_coins_by_category_run.
  destruct (upstream log _) as [category_data|e1].
  - destruct (negb (PyJson.truthy category_data)); [done|].
    apply on_exception_http.
  - apply on_exception_http.
Qed.

(** The requests each operation adds to the log. *)
Lemma sent_perform Category_init op log :
  sent (perform Category_init op) log
  = match op with
    | CoinGeckoService.ListCoins page per_page =>
        [coins_list_request page per_page]
    | CoinGeckoService.ListCategories => [categories_request]
    | CoinGeckoService.GetCoin coin_id => [coin_request coin_id]
    | CoinGeckoService.ListCoinsByCategory category_id page per_page =>
        match upstream log (category_request category_id) with
        | Ok category_data =>
            if PyJson.truthy category_data
            then [category_request category_id;
                  category_coins_request category_id page per_page]
            else [category_request category_id]
        | Raise _ => [category_request category_id]
        end
    end.
Proof.
  unfold sent.
  destruct op as [page per_page| |coin_id|category_id page per_page];
    unfold CoinGeckoService.perform; rewrite fmap_run; cbn [snd].
  - rewrite get_coins_list_run. apply drop_app_length.
  - rewrite get_coin_categories_run. apply drop_app_length.
  - rewrite get_coin_by_id_run. apply drop_app_length.
  - rewrite get_coins_by_category_run.
    destruct (upstream log _) as [category_data|e]; [|apply drop_app_length].
    destruct (PyJson.truthy category_data); cbn [negb snd].
    + rewrite <- app_assoc. apply drop_app_length.
    + apply drop_app_length.
Qed.

(** X10. No operation of the gateway and no endpoint lets any exception
    but an [HTTPException] out, whatever the provider answers or raises
    and whatever the [Category] constructor does: a failure always carries
    a status code. *)
Theorem operations_raise_http_only Category_init log e :
  (forall op, fst (perform Category_init op log) = Raise e -> is_http_exception e)
  /\ (forall page per_page,
        fst (Main.list_coins upstream self page per_page log) = Raise e ->
        is_http_exception e)
  /\ (fst (Main.list_categories upstream self Category_init log) = Raise e ->
      is_http_exception e)
  /\ (forall coin_id,
        fst (Main.get_coin upstream self coin_id log) = Raise e ->
        is_http_exception e)
  /\ (forall category_id page per_page,
        fst (Main.get_coins_by_category upstream self
               category_id page per_page log) = Raise e ->
        is_http_exception e).
Proof.
  conjs.
  - intros [page per_page| |coin_id|category_id page per_page] H;
      apply fmap_raise in H.
    + rewrite get_coins_list_run in H. by eapply on_exception_http.
    + rewrite get_coin_categories_run in H. by eapply on_exception_http.
    + rewrite get_coin_by_id_run in H. by eapply on_exception_http.
    + by eapply get_coins_by_category_http.
  - intros page per_page. unfold Main.list_coins.
    destruct (validate_pagination_params page per_page MAX_PER_PAGE) as [p pp].
    unfold mbind, Gateway_bind. rewrite get_coins_list_run.
    destruct (on_exception _ _ _) as [coins|e'] eqn:Hr; [done|].
    simpl. intros [= <-]. by eapply on_exception_http.
  - unfold Main.list_categories, mbind, Gateway_bind.
    rewrite get_coin_categories_run.
    destruct (on_exception _ _ _) as [cs|e'] eqn:Hr; [done|].
    simpl. intros [= <-]. by eapply on_exception_http.
  - intros coin_id. unfold Main.get_coin, try_except.
    rewrite get_coin_by_id_run.
    destruct (on_exception _ _ _) as [d|e'] eqn:Hr; [done|].
    simpl. intros [= <-]. by eapply on_exception_http.
  - intros category_id page per_page. unfold Main.get_coins_by_category.
    destruct (validate_pagination_params page per_page MAX_PER_PAGE) as [p pp].
    unfold try_except.
    destruct (CoinGeckoService.get_coins_by_category _ _ _ _ _ _)
      as [[r|e'] log'] eqn:Hr; [done|].
    simpl. intros [= <-].
    apply (get_coins_by_category_http category_id p pp log). by rewrite Hr.
Qed.

(** X11. Every request an operation sends carries the API-key header of
    the service, the timeout 200, and a URL under the configured base
    URL. *)
Theorem requests_carry_key Category_init op log :
  Forall (fun req =>
            headers req = [("X-CG-Demo-API-Key", CoinGeckoService.api_key self)]
            /\ timeout req = 200
            /\ exists endpoint,
                 url req = PyJson.fmt_opt (CoinGeckoService.base_url self)
                           +:+ "/" +:+ endpoint)
         (sent (perform Category_init op) log).
Proof.
  rewrite sent_perform.
  destruct op as [page per_page| |coin_id|category_id page per_page].
  - repeat constructor. by eexists.
  - repeat constructor. by eexists.
  - repeat constructor. by eexists.
  - destruct (upstream log _) as [category_data|e];
      [destruct (PyJson.truthy category_data)|];
      repeat constructor; by eexists.
Qed.

(** X12. Listing coins, listing categories and looking a coin up each
    send exactly one request.  Listing the coins of a category sends the
    category-metadata request, and after it the coin-market request, with
    [page] and [per_page] passed on unchanged, exactly when the first
    answer is a payload Python takes for true. *)
Theorem requests_sent Category_init log :
  (forall page per_page,
     sent (perform Category_init (CoinGeckoService.ListCoins page per_page)) log
     = [coins_list_request page per_page])
  /\ sent (perform Category_init CoinGeckoService.ListCategories) log
     = [categories_request]
  /\ (forall coin_id,
        sent (perform Category_init (CoinGeckoService.GetCoin coin_id)) log
        = [coin_request coin_id])
  /\ (forall category_id page per_page,
        sent (perform Category_init
                (CoinGeckoService.ListCoinsByCategory category_id page per_page))
             log
        = match upstream log (category_request category_id) with
          | Ok category_data =>
              if PyJson.truthy category_data
              then [category_request category_id;
                    category_coins_request category_id page per_page]
              else [category_request category_id]
          | Raise _ => [category_request category_id]
          end).
Proof. conjs; intros; by rewrite sent_perform. Qed.

(** X13. An exception of the call that is neither an HTTP error nor a
    transport failure leaves [_make_request] as it is; the operations turn
    it into status 500 with their own prefix and the exception's message,
    except the coin lookup, which reports 404 "Coin not found: <id>" and
    drops the message. *)
Theorem unexpected_exception_mapping Category_init log cls msg :
  (forall endpoint params,
     upstream log (request_for endpoint params) = Raise (OtherException cls msg) ->
     fst (CoinGeckoService._make_request upstream self endpoint params log)
     = Raise (OtherException cls msg))
  /\ (forall page per_page,
        upstream log (coins_list_request page per_page)
        = Raise (OtherException cls msg) ->
        fst (CoinGeckoService.get_coins_list upstream self page per_page log)
        = Raise (HTTPException 500 ("Internal server error: " +:+ msg)))
  /\ (upstream log categories_request = Raise (OtherException cls msg) ->
      fst (CoinGeckoService.get_coin_categories upstream self Category_init log)
      = Raise (HTTPException 500 ("Internal server error: " +:+ msg)))
  /\ (forall coin_id,
        upstream log (coin_request coin_id) = Raise (OtherException cls msg) ->
        fst (CoinGeckoService.get_coin_by_id upstream self coin_id log)
        = Raise (HTTPException 404 ("Coin not found: " +:+ coin_id)))
  /\ (forall category_id page per_page,
        upstream log (category_request category_id)
        = Raise (OtherException cls msg) ->
        fst (CoinGeckoService.get_coins_by_category upstream self
               category_id page per_page log)
        = Raise (HTTPException 500 ("Error fetching category coins: " +:+ msg))).
Proof.
  conjs.
  - intros endpoint params Hup. by rewrite make_request_run, Hup.
  - intros page per_page Hup. by rewrite get_coins_list_run, Hup.
  - intros Hup. by rewrite get_coin_categories_run, Hup.
  - intros coin_id Hup. by rewrite get_coin_by_id_run, Hup.
  - intros category_id page per_page Hup.
    by rewrite get_coins_by_category_run, Hup.
Qed.

(** ** Payloads of the coin list *)

Lemma coin_fields_dict kvs :
  CoinGeckoService.coin_fields (JDict kvs)
  = Ok (JDict (map (fun k => (k, value_of k kvs)) coin_keys)).
Proof. reflexivity. Qed.

Lemma coin_fields_not_dict x :
  PyJson.is_dict x = false ->
  exists msg, CoinGeckoService.coin_fields x = Raise (OtherException "AttributeError" msg).
Proof. destruct x; try done; intros _; by eexists. Qed.

Lemma mapM_coin_fields_dicts l :
  Forall (fun x => PyJson.is_dict x = true) l ->
  exists rows, mapM CoinGeckoService.coin_fields l = Ok rows.
Proof.
  induction 1 as [|x l Hx _ [rows IH]]; [by exists []|].
  destruct x; try done. cbn [mapM]. rewrite coin_fields_dict, IH. by eexists.
Qed.

Lemma mapM_coin_fields_not_dict l :
  Exists (fun x => PyJson.is_dict x = false) l ->
  exists msg,
    mapM CoinGeckoService.coin_fields l = Raise (OtherException "AttributeError" msg).
Proof.
  induction l as [|x l IH]; intros H; [by inversion H|].
  cbn [mapM]. destruct (PyJson.is_dict x) eqn:Hx.
  - destruct x; try done. rewrite coin_fields_dict.
    apply Exists_inv in H as [H|H]; [congruence|].
    destruct (IH H) as [msg ->]. by eexists.
  - destruct (coin_fields_not_dict x Hx) as [msg ->]. by eexists.
Qed.

(** X14. The reshaping of a coin is a projection: of a record it keeps
    exactly the eight coin keys, in a fixed order, each with the record's
    value or null when the record lacks the key, and drops every other
    key; applied to its own result it changes nothing. *)
Theorem coin_fields_projection kvs :
  exists row,
    CoinGeckoService.coin_fields (JDict kvs) = Ok (JDict row)
    /\ map fst row = coin_keys
    /\ Forall (fun k => PyJson.lookup k row = Some (value_of k kvs)) coin_keys
    /\ (forall k, k ∉ coin_keys -> PyJson.lookup k row = None)
    /\ CoinGeckoService.coin_fields (JDict row) = Ok (JDict row).
Proof.
  eexists. split; [apply coin_fields_dict|]. conjs.
  - reflexivity.
  - repeat constructor.
  - intros k Hk. unfold coin_keys in Hk. simpl.
    repeat match goal with
           | |- context [String.eqb k ?s] =>
               destruct (String.eqb_spec k s) as [->|_];
               [exfalso; apply Hk; solve [repeat constructor]|]
           end.
    done.
  - reflexivity.
Qed.

(** X15. What [get_coins_list] makes of a payload that is not a list: a
    payload Python takes for false (null, false, 0, an empty string or
    record) gives the empty list, not an error; any other payload that is
    not a list (a non-empty record such as an error object, a number,
    true, a non-empty string) is reported as status 500, for a page size
    of at least 1. *)
Theorem get_coins_list_payload_shape page per_page log data :
  upstream log (coins_list_request page per_page) = Ok data ->
  (PyJson.truthy data = false ->
   fst (CoinGeckoService.get_coins_list upstream self page per_page log) = Ok [])
  /\ (1 <= per_page ->
      PyJson.truthy data = true ->
      PyJson.is_list data = false ->
      status_of (fst (CoinGeckoService.get_coins_list upstream self
                        page per_page log))
      = Some 500).
Proof.
  intros Hup. rewrite get_coins_list_run, Hup. cbn [fst]. split.
  - by intros ->.
  - intros Hpp Ht Hnl. rewrite Ht. cbn [negb].
    destruct data as [|b|n|f|s|xs|kvs]; try done.
    destruct s as [|c s]; [done|].
    simpl. rewrite slice_to_take by lia.
    destruct (Z.to_nat per_page) as [|n] eqn:Hn; [lia|]. done.
Qed.

(** X16. On a list payload and for a page size of at least 0, only the
    first [per_page] entries are looked at: when they are all records the
    operation returns one row for each, whatever comes after them (the
    extra entry fetched for the look-ahead is never inspected); when one
    of them is not a record the operation fails with status 500. *)
Theorem get_coins_list_window page per_page log xs :
  0 <= per_page ->
  upstream log (coins_list_request page per_page) = Ok (JList xs) ->
  (Forall (fun x => PyJson.is_dict x = true) (take (Z.to_nat per_page) xs) ->
   exists rows,
     fst (CoinGeckoService.get_coins_list upstream self page per_page log)
     = Ok rows
     /\ length rows = Nat.min (Z.to_nat per_page) (length xs))
  /\ (Exists (fun x => PyJson.is_dict x = false) (take (Z.to_nat per_page) xs) ->
      status_of (fst (CoinGeckoService.get_coins_list upstream self
                        page per_page log))
      = Some 500).
Proof.
  intros Hpp Hup. rewrite get_coins_list_run, Hup. cbn [fst].
  destruct xs as [|x xs].
  - split.
    + intros _. exists []. split; [done|simpl; lia].
    + rewrite take_nil. intros H. by inversion H.
  - cbn [PyJson.truthy negb].
    assert (E : (PyJson.slice_to (JList (x :: xs)) per_page
                 ≫= CoinGeckoService.coin_rows)
                = mapM CoinGeckoService.coin_fields
                    (take (Z.to_nat per_page) (x :: xs))).
    { unfold PyJson.slice_to. by rewrite slice_to_take. }
    rewrite E. split.
    + intros Hd. destruct (mapM_coin_fields_dicts _ Hd) as [rows Hrows].
      rewrite Hrows. exists rows. split; [done|].
      apply mapM_Ok_length in Hrows. by rewrite Hrows, length_take.
    + intros Hnd. destruct (mapM_coin_fields_not_dict _ Hnd) as [msg ->]. done.
Qed.

(** ** Categories *)

Lemma collect_categories_inv Category_init data categories r :
  CoinGeckoService.collect_categories Category_init data categories = Ok r ->
  exists cs,
    r = categories ++ cs
    /\ Forall2 (fun x c => CoinGeckoService.from_coingecko Category_init x = Ok c)
               (List.filter PyJson.is_dict data) cs.
Proof.
  revert categories. induction data as [|x data IH]; intros categories.
  - simpl. intros [= <-]. exists []. split; [by rewrite app_nil_r|constructor].
  - simpl. destruct (PyJson.is_dict x) eqn:Hx.
    + destruct (CoinGeckoService.from_coingecko Category_init x) as [c|e] eqn:Hc;
        simpl; [|done].
      intros H. destruct (IH _ H) as (cs & -> & Hcs).
      exists (c :: cs). split; [by rewrite <- app_assoc|by constructor].
    + apply IH.
Qed.

(** X17. When [get_coin_categories] returns on a list payload, it returns
    exactly one category per record of the payload, in the payload's
    order, each the one [Category.from_coingecko] builds from that record:
    never more categories than entries, and none for an entry that is not
    a record. *)
Theorem get_coin_categories_records Category_init log xs cs :
  upstream log categories_request = Ok (JList xs) ->
  fst (CoinGeckoService.get_coin_categories upstream self Category_init log)
  = Ok cs ->
  Forall2 (fun x c => CoinGeckoService.from_coingecko Category_init x = Ok c)
          (List.filter PyJson.is_dict xs) cs
  /\ length cs = length (List.filter PyJson.is_dict xs)
  /\ (length cs <= length xs)%nat.
Proof.
  intros Hup. rewrite get_coin_categories_run, Hup. cbn [fst].
  destruct (CoinGeckoService.collect_categories Category_init xs [])
    as [r|[]] eqn:Hr; try done.
  intros [= <-]. destruct (collect_categories_inv _ _ _ _ Hr) as (cs & -> & Hcs).
  simpl. split; [done|].
  apply Forall2_length in Hcs. split; [done|].
  rewrite <- Hcs. apply List.filter_length_le.
Qed.

(** X18. [Category.from_coingecko] fills in what a record lacks: given a
    constructor that accepts two strings, a record whose [category_id] and
    [name] are strings or missing yields the category with those strings,
    the empty string standing for a missing one. *)
Theorem from_coingecko_defaults Category_init kvs :
  (forall i n, Category_init (JStr i) (JStr n) = Ok (Category.Build i n)) ->
  (PyJson.lookup "category_id" kvs = None
   \/ exists i, PyJson.lookup "category_id" kvs = Some (JStr i)) ->
  (PyJson.lookup "name" kvs = None
   \/ exists n, PyJson.lookup "name" kvs = Some (JStr n)) ->
  CoinGeckoService.from_coingecko Category_init (JDict kvs)
  = Ok (Category.Build
          (match PyJson.lookup "category_id" kvs with
           | Some (JStr i) => i
           | _ => ""
           end)
          (match PyJson.lookup "name" kvs with
           | Some (JStr n) => n
           | _ => ""
           end)).
Proof.
  intros Hinit Hid Hname. unfold CoinGeckoService.from_coingecko. simpl.
  destruct Hid as [->|[i ->]], Hname as [->|[n ->]]; apply Hinit.
Qed.

(** ** The coin detail on partial payloads *)

Lemma bind_raise_l {A B} (m : result A) (f : A -> result B) :
  (exists e, m = Raise e) -> exists e, m ≫= f = Raise e.
Proof. intros [e ->]. by exists e. Qed.

Lemma bind_raise_r {A B} (m : result A) (f : A -> result B) :
  (forall a, exists e, f a = Raise e) -> exists e, m ≫= f = Raise e.
Proof. intros H. destruct m as [a|e]; [apply H|by exists e]. Qed.

Lemma get_not_dict v k default :
  PyJson.is_dict v = false -> exists e, PyJson.get v k default = Raise e.
Proof. destruct v; try done; intros _; by eexists. Qed.

Lemma on_exception_plain {A} status_code detail (r : result A) :
  raises_plain r ->
  (exists e, r = Raise e) ->
  exists e, r = Raise e
            /\ on_exception status_code detail r
               = Raise (HTTPException status_code (detail e)).
Proof.
  intros Hplain [e ->]. destruct (Hplain e eq_refl) as (cls & msg & ->).
  by eexists.
Qed.

(** X19. A record payload without [market_data] and without [links] is
    not a failure of the coin lookup: the prices, the market cap and the
    price changes come out null, the three link lists empty, and the other
    fields are the payload's values or null.  An empty record gives the
    all-null coin. *)
Theorem get_coin_by_id_without_market_data coin_id log kvs :
  upstream log (coin_request coin_id) = Ok (JDict kvs) ->
  PyJson.lookup "market_data" kvs = None ->
  PyJson.lookup "links" kvs = None ->
  fst (CoinGeckoService.get_coin_by_id upstream self coin_id log)
  = Ok (JDict
          [("id", value_of "id" kvs); ("symbol", value_of "symbol" kvs);
           ("name", value_of "name" kvs);
           ("current_price", JNull); ("market_cap", JNull);
           ("market_cap_rank", value_of "market_cap_rank" kvs);
           ("price_change_24h", JNull);
           ("price_change_percentage_24h", JNull);
           ("description", value_of "description" kvs);
           ("categories", value_of "categories" kvs);
           ("links", JDict [("homepage", JList []);
                            ("blockchain_site", JList []);
                            ("official_forum_url", JList [])])]).
Proof.
  intros Hup Hmd Hlinks. rewrite get_coin_by_id_run, Hup. cbn [fst].
  unfold CoinGeckoService.coin_detail. simpl. rewrite Hmd, Hlinks. simpl.
  by destruct (CoinGeckoService.default_currency self).
Qed.

(** X20. A [market_data] or a [links] that is present in the payload but
    is not a record (null, for instance) is not treated as missing: the
    defaults apply to absent keys only, and the coin lookup fails with
    404 "Coin not found: <id>". *)
Theorem get_coin_by_id_section_not_record coin_id log kvs v :
  upstream log (coin_request coin_id) = Ok (JDict kvs) ->
  PyJson.is_dict v = false ->
  PyJson.lookup "market_data" kvs = Some v \/ PyJson.lookup "links" kvs = Some v ->
  fst (CoinGeckoService.get_coin_by_id upstream self coin_id log)
  = Raise (HTTPException 404 ("Coin not found: " +:+ coin_id)).
Proof.
  intros Hup Hv Hsection. rewrite get_coin_by_id_run, Hup. cbn [fst].
  assert (Hfail : exists e, CoinGeckoService.coin_detail self (JDict kvs) = Raise e).
  { unfold CoinGeckoService.coin_detail.
    destruct Hsection as [Hmd|Hlinks].
    - repeat first
        [ apply bind_raise_l; cbn [PyJson.get]; rewrite Hmd;
          change (exists e, PyJson.get v "current_price" (JDict [])
                            ≫= (fun current_price =>
                                  PyJson.get_opt current_price
                                    (CoinGeckoService.default_currency self))
                            = Raise e);
          solve [apply bind_raise_l, get_not_dict, Hv]
        | apply bind_raise_r; intros ? ].
    - repeat first
        [ apply bind_raise_l; cbn [PyJson.get]; rewrite Hlinks;
          change (exists e, PyJson.get v "homepage" (JList []) = Raise e);
          solve [apply get_not_dict, Hv]
        | apply bind_raise_r; intros ? ]. }
  destruct (on_exception_plain 404 (fun _ => "Coin not found: " +:+ coin_id) _
              (coin_detail_raises_plain self (JDict kvs)) Hfail)
    as (e & _ & ->).
  done.
Qed.

(** ** The coins of a category *)

(** X21. When the category metadata is a non-empty record and the
    coin-market payload reshapes, [get_coins_by_category] returns the
    reshaped coins under the record's [name], whatever its type, or under
    the category id when the record has no [name]. *)
Theorem get_coins_by_category_name category_id page per_page log kvs coins_data rows :
  upstream log (category_request category_id) = Ok (JDict kvs) ->
  kvs <> [] ->
  upstream (log ++ [category_request category_id])
           (category_coins_request category_id page per_page)
  = Ok coins_data ->
  CoinGeckoService.coin_rows coins_data = Ok rows ->
  fst (CoinGeckoService.get_coins_by_category upstream self
         category_id page per_page log)
  = Ok (CategoryCoins.Build
          (match PyJson.lookup "name" kvs with
           | Some name => name
           | None => JStr category_id
           end)
          rows).
Proof.
  intros Hup Hkvs Hup2 Hrows. rewrite get_coins_by_category_run, Hup.
  destruct kvs as [|kv kvs]; [done|]. cbn [PyJson.truthy negb fst].
  by rewrite Hup2, Hrows.
Qed.

(** X22. When the category metadata is a payload Python takes for true
    but not a record (a non-empty list or string, a number, true), the
    operation never returns: it still sends the coin-market request, and
    with a coin-market payload that reshapes it fails with status 500 on
    reading the category name. *)
Theorem get_coins_by_category_not_record category_id page per_page log category_data :
  upstream log (category_request category_id) = Ok category_data ->
  PyJson.truthy category_data = true ->
  PyJson.is_dict category_data = false ->
  (forall r,
     fst (CoinGeckoService.get_coins_by_category upstream self
            category_id page per_page log) <> Ok r)
  /\ sent (CoinGeckoService.get_coins_by_category upstream self
             category_id page per_page) log
     = [category_request category_id;
        category_coins_request category_id page per_page]
  /\ (forall coins_data rows,
        upstream (log ++ [category_request category_id])
                 (category_coins_request category_id page per_page)
        = Ok coins_data ->
        CoinGeckoService.coin_rows coins_data = Ok rows ->
        status_of (fst (CoinGeckoService.get_coins_by_category upstream self
                          category_id page per_page log))
        = Some 500).
Proof.
  intros Hup Ht Hnd. unfold sent.
  rewrite get_coins_by_category_run, Hup, Ht. cbn [negb fst snd].
  destruct (get_not_dict category_data "name" (JStr category_id) Hnd) as [e He].
  destruct (raises_plain_get _ _ _ _ He) as (cls & msg & ->).
  conjs.
  - intros r. destruct (upstream (log ++ _) _) as [coins_data|e].
    + unfold mbind, result_bind.
      destruct (CoinGeckoService.coin_rows coins_data) as [rows|[]]; try done.
      by rewrite He.
    + by destruct (gateway_error e).
  - rewrite <- app_assoc. apply drop_app_length.
  - intros coins_data rows -> Hrows. unfold mbind, result_bind.
    by rewrite Hrows, He.
Qed.

(** ** The coin-list endpoint *)

Lemma list_coins_run page per_page log :
  Main.list_coins upstream self page per_page log
  = let p := fst (validate_pagination_params page per_page MAX_PER_PAGE) in
    let pp := snd (validate_pagination_params page per_page MAX_PER_PAGE) in
    (match fst (CoinGeckoService.get_coins_list upstream self p pp log) with
     | Ok coins =>
         Ok (PaginatedResponse.Build p pp
               (match coins with [] => p * pp | _ => p * pp + pp end) coins)
     | Raise e => Raise e
     end,
     log ++ [coins_list_request p pp]).
Proof.
  unfold Main.list_coins.
  destruct (validate_pagination_params page per_page MAX_PER_PAGE) as [p pp].
  cbn [fst snd]. unfold mbind, Gateway_bind.
  rewrite get_coins_list_run. cbn [fst].
  by destruct (on_exception _ _ _).
Qed.

(** X23. Whatever the raw query parameters and whatever the provider
    does, the coin-list endpoint sends exactly one request, to
    [coins/markets], for page [max(page, 1)] and for between 2 and 101
    items: one more than the normalized page size. *)
Theorem list_coins_request page per_page log :
  exists req n,
    sent (Main.list_coins upstream self page per_page) log = [req]
    /\ url req = PyJson.fmt_opt (CoinGeckoService.base_url self)
                 +:+ "/coins/markets"
    /\ int_param "page" req = Some (Z.max page 1)
    /\ int_param "per_page" req = Some n
    /\ n = snd (validate_pagination_params page per_page MAX_PER_PAGE) + 1
    /\ 2 <= n <= 101.
Proof.
  unfold sent. rewrite list_coins_run. cbn [snd].
  rewrite drop_app_length.
  destruct (validate_pagination_params_normalized page per_page)
    as (_ & Hlo & Hhi).
  eexists _, _. conjs; try reflexivity; unfold MAX_PER_PAGE in *; lia.
Qed.

(** X24. The [total] of the coin-list envelope is never the number of
    items served: whenever the endpoint returns, [total] is a multiple of
    [per_page], at least [page * per_page], and strictly more than the
    items of all pages up to this one can amount to,
    [(page - 1) * per_page + len(items)], even when this page is empty. *)
Theorem list_coins_total_overstates page per_page log r :
  fst (Main.list_coins upstream self page per_page log) = Ok r ->
  PaginatedResponse.per_page r * PaginatedResponse.page r
  <= PaginatedResponse.total r
  /\ (PaginatedResponse.page r - 1) * PaginatedResponse.per_page r
     + Py.len (PaginatedResponse.items r)
     < PaginatedResponse.total r
  /\ PaginatedResponse.total r mod PaginatedResponse.per_page r = 0.
Proof.
  rewrite list_coins_run. cbn [fst].
  destruct (validate_pagination_params_normalized page per_page)
    as (Hp & Hlo & Hhi).
  set (p := fst (validate_pagination_params page per_page MAX_PER_PAGE)) in *.
  set (pp := snd (validate_pagination_params page per_page MAX_PER_PAGE)) in *.
  cbn zeta.
  destruct (fst (CoinGeckoService.get_coins_list upstream self p pp log))
    as [coins|e] eqn:Hrun; [|done].
  intros [= <-]. cbn [PaginatedResponse.page PaginatedResponse.per_page
                      PaginatedResponse.total PaginatedResponse.items].
  assert (Hlen : Py.len coins <= pp)
    by (apply (get_coins_list_bound upstream self p pp log); [lia|done]).
  destruct coins as [|c coins].
  - unfold Py.len. simpl. conjs; [lia|lia|].
    apply Z.mod_divide; [lia|]. by exists p.
  - conjs; [lia|lia|].
    apply Z.mod_divide; [lia|]. exists (p + 1). lia.
Qed.

(** X25. Whatever the raw query parameters, a request of the
    category-coins endpoint that carries a page size carries the
    normalized one, between 1 and 100 and not one more, together with the
    page [max(page, 1)]. *)
Theorem get_coins_by_category_request category_id page per_page log :
  Forall (fun req =>
            int_param "per_page" req = None
            \/ (int_param "per_page" req
                = Some (snd (validate_pagination_params page per_page MAX_PER_PAGE))
                /\ 1 <= snd (validate_pagination_params page per_page MAX_PER_PAGE)
                     <= 100
                /\ int_param "page" req = Some (Z.max page 1)))
         (sent (Main.get_coins_by_category upstream self category_id page per_page)
               log).
Proof.
  unfold sent, Main.get_coins_by_category.
  destruct (validate_pagination_params_normalized page per_page)
    as (_ & Hlo & Hhi).
  assert (Hp : fst (validate_pagination_params page per_page MAX_PER_PAGE)
               = Z.max page 1) by reflexivity.
  destruct (validate_pagination_params page per_page MAX_PER_PAGE) as [p pp].
  cbn [fst snd] in *. subst p. unfold MAX_PER_PAGE in Hhi.
  unfold try_except. rewrite get_coins_by_category_run.
  destruct (upstream log _) as [category_data|e].
  - destruct (negb (PyJson.truthy category_data)).
    + cbn [snd]. rewrite drop_app_length.
      constructor; [by left|constructor].
    + destruct (on_exception _ _ _); cbn [snd raise lift];
        rewrite <- app_assoc, drop_app_length;
        (constructor; [by left|]); (constructor; [by right|constructor]).
  - destruct (on_exception _ _ _); cbn [snd raise lift];
      rewrite drop_app_length; (constructor; [by left|constructor]).
Qed.

End OperationsSendRaise.

Section LookAhead.

Variables upstream upstream' : Upstream.
Variable self : CoinGeckoService.t.

Abbreviation coins_list_request page per_page :=
  (CoinGeckoService.request_for self "coins/markets"
     (Some [("vs_currency", PyJson.of_opt (CoinGeckoService.default_currency self));
            ("order", JStr "market_cap_desc");
            ("per_page", JInt (per_page + 1));
            ("page", JInt page);
            ("sparkline", JBool false)])).

(** X26. The item fetched beyond the page size never influences the
    response of the coin-list endpoint: two provider lists that agree on
    their first [per_page] entries (for the normalized [per_page]) give the
    same result, items and [total] alike, so a full page followed by
    nothing and a full page followed by more are indistinguishable. *)
Theorem list_coins_ignores_lookahead page per_page log log' xs ys :
  let p := fst (validate_pagination_params page per_page MAX_PER_PAGE) in
  let pp := snd (validate_pagination_params page per_page MAX_PER_PAGE) in
  upstream log (coins_list_request p pp) = Ok (JList xs) ->
  upstream' log' (coins_list_request p pp) = Ok (JList ys) ->
  take (Z.to_nat pp) xs = take (Z.to_nat pp) ys ->
  fst (Main.list_coins upstream self page per_page log)
  = fst (Main.list_coins upstream' self page per_page log').
Proof.
  intros p pp Hup Hup' Htake.
  rewrite (list_coins_run upstream), (list_coins_run upstream').
  cbn [fst]. fold p pp.
  rewrite (get_coins_list_run upstream), (get_coins_list_run upstream').
  rewrite Hup, Hup'. cbn [fst].
  destruct (validate_pagination_params_normalized page per_page)
    as (_ & Hlo & _). fold pp in Hlo.
  assert (Hrows : forall zs : list json,
             (if negb (PyJson.truthy (JList zs)) then Ok []
              else PyJson.slice_to (JList zs) pp ≫= CoinGeckoService.coin_rows)
             = mapM CoinGeckoService.coin_fields (take (Z.to_nat pp) zs)).
  { intros [|z zs]; [by rewrite take_nil|].
    cbn [PyJson.truthy negb]. unfold PyJson.slice_to.
    by rewrite slice_to_take by lia. }
  by rewrite !Hrows, Htake.
Qed.

End LookAhead.

(** ** The further properties at concrete inputs *)

Lemma operations_raise_http_only_witness :
  is_http_exception (HTTPException 500 "Internal server error: boom").
Proof.
  destruct (operations_raise_http_only
              (always (Raise (OtherException "Exception" "boom")))
              test_service Category_init_strict []
              (HTTPException 500 "Internal server error: boom"))
    as (Hop & _).
  exact (Hop (CoinGeckoService.ListCoins 1 10) eq_refl).
Defined.

Lemma unexpected_exception_mapping_witness :
  fst (CoinGeckoService.get_coin_by_id
         (always (Raise (OtherException "Exception" "Test exception")))
         test_service "bitcoin" [])
  = Raise (HTTPException 404 "Coin not found: bitcoin").
Proof.
  destruct (unexpected_exception_mapping
              (always (Raise (OtherException "Exception" "Test exception")))
              test_service Category_init_strict [] "Exception" "Test exception")
    as (_ & _ & _ & Hcoin & _).
  exact (Hcoin "bitcoin" eq_refl).
Defined.

Lemma coin_fields_projection_witness :
  exists row,
    CoinGeckoService.coin_fields (JDict [("id", JStr "a"); ("image", JStr "png")])
    = Ok (JDict row)
    /\ PyJson.lookup "image" row = None.
Proof.
  destruct (coin_fields_projection [("id", JStr "a"); ("image", JStr "png")])
    as (row & Hrow & _ & _ & Hnone & _).
  exists row. split; [exact Hrow|].
  apply Hnone. unfold coin_keys. intros H.
  repeat (apply elem_of_cons in H as [H|H]; [discriminate H|]).
  by apply elem_of_nil in H.
Defined.

Lemma get_coins_list_payload_shape_witness :
  status_of (fst (CoinGeckoService.get_coins_list
                    (always (Ok (JDict [("error", JStr "coin not found")])))
                    test_service 1 10 []))
  = Some 500.
Proof.
  destruct (get_coins_list_payload_shape
              (always (Ok (JDict [("error", JStr "coin not found")])))
              test_service 1 10 [] (JDict [("error", JStr "coin not found")])
              eq_refl)
    as (_ & H500).
  apply H500; [lia|reflexivity|reflexivity].
Defined.

Lemma get_coins_list_window_witness :
  exists rows,
    fst (CoinGeckoService.get_coins_list
           (always (Ok (JList (raw_coins 10 ++ [JNull])))) test_service 1 10 [])
    = Ok rows
    /\ length rows = 10%nat.
Proof.
  destruct (get_coins_list_window
              (always (Ok (JList (raw_coins 10 ++ [JNull])))) test_service 1 10 []
              (raw_coins 10 ++ [JNull]) ltac:(lia) eq_refl)
    as (Hok & _).
  apply Hok. vm_compute. repeat constructor.
Defined.

Lemma get_coin_categories_records_witness :
  length [Category.Build "defi" "DeFi"] = 1%nat.
Proof.
  destruct (get_coin_categories_records
              (always (Ok (JList [JNull;
                                  JDict [("category_id", JStr "defi");
                                         ("name", JStr "DeFi")]])))
              test_service Category_init_strict []
              [JNull; JDict [("category_id", JStr "defi"); ("name", JStr "DeFi")]]
              [Category.Build "defi" "DeFi"] eq_refl eq_refl)
    as (_ & Hlen & _).
  exact Hlen.
Defined.

Lemma from_coingecko_defaults_witness :
  CoinGeckoService.from_coingecko Category_init_strict
    (JDict [("name", JStr "DeFi")])
  = Ok (Category.Build "" "DeFi").
Proof.
  apply (from_coingecko_defaults Category_init_strict [("name", JStr "DeFi")]).
  - reflexivity.
  - by left.
  - right. by exists "DeFi".
Defined.

Lemma get_coin_by_id_without_market_data_witness :
  fst (CoinGeckoService.get_coin_by_id (always (Ok (JDict []))) test_service
         "bitcoin" [])
  = Ok (JDict
          [("id", JNull); ("symbol", JNull); ("name", JNull);
           ("current_price", JNull); ("market_cap", JNull);
           ("market_cap_rank", JNull); ("price_change_24h", JNull);
           ("price_change_percentage_24h", JNull);
           ("description", JNull); ("categories", JNull);
           ("links", JDict [("homepage", JList []);
                            ("blockchain_site", JList []);
                            ("official_forum_url", JList [])])]).
Proof.
  exact (get_coin_by_id_without_market_data (always (Ok (JDict []))) test_service
           "bitcoin" [] [] eq_refl eq_refl eq_refl).
Defined.

Lemma get_coin_by_id_section_not_record_witness :
  fst (CoinGeckoService.get_coin_by_id
         (always (Ok (JDict [("id", JStr "bitcoin"); ("market_data", JNull)])))
         test_service "bitcoin" [])
  = Raise (HTTPException 404 "Coin not found: bitcoin").
Proof.
  exact (get_coin_by_id_section_not_record
           (always (Ok (JDict [("id", JStr "bitcoin"); ("market_data", JNull)])))
           test_service "bitcoin" []
           [("id", JStr "bitcoin"); ("market_data", JNull)] JNull
           eq_refl eq_refl (or_introl eq_refl)).
Defined.

Lemma get_coins_by_category_name_witness :
  fst (CoinGeckoService.get_coins_by_category
         (in_turn [Ok (JDict [("id", JStr "defi")]); Ok (JList [])])
         test_service "defi" 1 10 [])
  = Ok (CategoryCoins.Build (JStr "defi") []).
Proof.
  apply (get_coins_by_category_name
           (in_turn [Ok (JDict [("id", JStr "defi")]); Ok (JList [])])
           test_service "defi" 1 10 [] [("id", JStr "defi")] (JList []) []).
  - reflexivity.
  - discriminate.
  - reflexivity.
  - reflexivity.
Defined.

Lemma get_coins_by_category_not_record_witness :
  status_of (fst (CoinGeckoService.get_coins_by_category
                    (in_turn [Ok (JStr "not a record"); Ok (JList [])])
                    test_service "defi" 1 10 []))
  = Some 500.
Proof.
  destruct (get_coins_by_category_not_record
              (in_turn [Ok (JStr "not a record"); Ok (JList [])])
              test_service "defi" 1 10 [] (JStr "not a record")
              eq_refl eq_refl eq_refl)
    as (_ & _ & H500).
  exact (H500 (JList []) [] eq_refl eq_refl).
Defined.

Lemma list_coins_total_overstates_witness :
  (3 - 1) * 10 + 0 < 30.
Proof.
  destruct (list_coins_total_overstates (always (Ok (JList []))) test_service
              3 10 [] (PaginatedResponse.Build 3 10 30 []) eq_refl)
    as (_ & Hlt & _).
  exact Hlt.
Defined.

Lemma list_coins_ignores_lookahead_witness :
  fst (Main.list_coins (always (Ok (JList (raw_coins 10)))) test_service 1 10 [])
  = fst (Main.list_coins (always (Ok (JList (raw_coins 11)))) test_service 1 10 []).
Proof.
  apply (list_coins_ignores_lookahead
           (always (Ok (JList (raw_coins 10))))
           (always (Ok (JList (raw_coins 11))))
           test_service 1 10 [] [] (raw_coins 10) (raw_coins 11));
    reflexivity.
Defined.
